(** * rubrik_oracle_backup_clone: the clone workflow of [cli]

    A shallow embedding of [src/rubrik_oracle_backup_clone.py].  The script is
    one long function, [cli], that talks to three collaborators: the Rubrik
    backend and the database engine (both through [rbs_oracle_common]) and the
    local operating system.  It is embedded as a computation in a small
    exception-and-trace monad: every collaborator call, every logger call and
    every change to the local machine is appended to a trace of events, and a
    run ends either normally or with a Python exception.

    What the collaborators answer is not part of the script.  Their answers are
    the fields of a [World] record; each answer may depend on everything that
    happened before the call (the trace so far), so that, for instance, two
    listings of the same directory can differ.

    Exceptions raised inside a collaborator are theirs, not the script's: here
    every call returns an answer, and the exceptions of a run are those the
    script raises itself or provokes in the Python run time (a missing list
    element, a text that is not a number, a name that was never bound).  The
    operating system and [configparser] are collaborators in this sense too:
    a directory that cannot be made or listed, a file that cannot be opened,
    a configuration file that [configparser] refuses to parse, are outside
    the model.

    Conventions.  Python [str] is [string] (bytes; the text handled here is
    ASCII), [int] is [Z], [dict] is [gmap], [set] is [gset], an optional
    command-line option that click leaves at [None] is [option string]. *)

From Stdlib Require Import ZArith Ascii DecimalString.
From stdpp Require Import base option list strings gmap.

Local Open Scope Z_scope.

(** ** Python built-ins used by the script *)

Module Py.

(** Truth value of an optional string: [None] and [""] are false. *)
Definition truthy (o : option string) : bool :=
  match o with
  | Some s => negb (String.eqb s "")
  | None => false
  end.

(** Truth value of a flag that may have become [None]. *)
Definition truthy_flag (o : option bool) : bool :=
  match o with
  | Some b => b
  | None => false
  end.

(** The string an optional value is formatted or passed as once it has been
    tested for truth. *)
Definition str (o : option string) : string := default "" o.

(** [s.split(sep)] for a separator of one character. *)
Fixpoint split (sep : ascii) (s : string) : list string :=
  match s with
  | "" => [""]
  | String c s' =>
      if Ascii.eqb c sep then "" :: split sep s'
      else match split sep s' with
           | w :: ws => String c w :: ws
           | [] => [String c ""]
           end
  end.

(** [s.replace(old, new)] for [old] of one character. *)
Fixpoint replace (old : ascii) (new : string) (s : string) : string :=
  match s with
  | "" => ""
  | String c s' =>
      if Ascii.eqb c old then new +:+ replace old new s'
      else String c (replace old new s')
  end.

(** [needle in hay] on strings. *)
Fixpoint contains (needle hay : string) : bool :=
  String.prefix needle hay ||
  match hay with
  | "" => false
  | String _ hay' => contains needle hay'
  end.

Definition upper_ascii (c : ascii) : ascii :=
  let n := N_of_ascii c in
  if ((97 <=? n) && (n <=? 122))%N then ascii_of_N (n - 32) else c.

Definition lower_ascii (c : ascii) : ascii :=
  let n := N_of_ascii c in
  if ((65 <=? n) && (n <=? 90))%N then ascii_of_N (n + 32) else c.

Fixpoint map_string (f : ascii → ascii) (s : string) : string :=
  match s with
  | "" => ""
  | String c s' => String (f c) (map_string f s')
  end.

Definition upper : string → string := map_string upper_ascii.
Definition lower : string → string := map_string lower_ascii.

(** [template.format(a1, ..., an)] for templates whose only replacement fields are
    the automatically numbered [{}], which is all the script uses.  (Python
    raises when the arguments run out; no call site of the script does.) *)
Fixpoint format (template : string) (args : list string) : string :=
  match template with
  | "" => ""
  | String "{" (String "}" rest as tail) =>
      match args with
      | a :: args' => a +:+ format rest args'
      | [] => String "{" tail
      end
  | String c rest => String c (format rest args)
  end.

(** [int(s)] on a string: optional surrounding white space, an optional
    sign, then decimal digits, where single underscores may separate digits.
    [None] stands for the [ValueError] Python raises. *)
Fixpoint lstrip (s : string) : string :=
  match s with
  | String c s' => if Ascii.is_space c then lstrip s' else s
  | "" => ""
  end.

Definition strip (s : string) : string :=
  String.rev (lstrip (String.rev (lstrip s))).

(** [digits acc prev s]: [prev] tells whether the previous character was a
    digit (an underscore is only allowed right after one, and not last). *)
Fixpoint digits (acc : Z) (prev : bool) (s : string) : option Z :=
  match s with
  | "" => if prev then Some acc else None
  | String c s' =>
      match Ascii.is_nat c with
      | Some d => digits (10 * acc + Z.of_nat d) true s'
      | None =>
          if Ascii.eqb c "_" && prev then
            match s' with
            | "" => None
            | String c' _ => if Ascii.eqb c' "_" then None else digits acc false s'
            end
          else None
      end
  end.

Definition int (s : string) : option Z :=
  match strip s with
  | String "-" s' => Z.opp <$> digits 0 false s'
  | String "+" s' => digits 0 false s'
  | s' => digits 0 false s'
  end.

(** [str(n)] for a natural number. *)
Definition str_of_nat (n : nat) : string :=
  NilEmpty.string_of_uint (Nat.to_uint n).

(** [repr(s)] for a string of ASCII characters: the string in single
    quotes, or in double quotes when it has a single quote in it and no
    double quote; the quote used and the backslash are escaped with a
    backslash; tab, newline and carriage return are written \t, \n and \r,
    and any other control character as \x and two hexadecimal digits. *)
Definition backslash : ascii := ascii_of_nat 92.

Definition double_quote : ascii := ascii_of_nat 34.

Definition hex_digit (n : N) : ascii :=
  match String.get (N.to_nat n) "0123456789abcdef" with
  | Some c => c
  | None => "0"
  end.

Definition repr_char (quote c : ascii) : string :=
  let n := N_of_ascii c in
  if Ascii.eqb c backslash || Ascii.eqb c quote then String backslash (String c "")
  else if Ascii.eqb c "009" then String backslash "t"
  else if Ascii.eqb c "010" then String backslash "n"
  else if Ascii.eqb c "013" then String backslash "r"
  else if ((n <? 32) || (n =? 127))%N then
    String backslash
      (String "x" (String (hex_digit (n / 16)) (String (hex_digit (n mod 16)) "")))
  else String c "".

Fixpoint repr_chars (quote : ascii) (s : string) : string :=
  match s with
  | "" => ""
  | String c s' => repr_char quote c +:+ repr_chars quote s'
  end.

Definition repr (s : string) : string :=
  let quote := if contains "'" s && negb (contains (String double_quote "") s)
               then double_quote else "'"%char in
  String quote (repr_chars quote s +:+ String quote "").

(** The first [n] characters of a string, as the precision of a format
    ([%.200R]) keeps them. *)
Fixpoint truncate (n : nat) (s : string) : string :=
  match n, s with
  | S n', String c s' => String c (truncate n' s')
  | _, _ => ""
  end.

(** [os.path.join(a, b)] on a POSIX host. *)
Definition ends_with_slash (a : string) : bool :=
  match String.rev a with
  | String "/" _ => true
  | _ => false
  end.

Definition path_join (a b : string) : string :=
  match b with
  | String "/" _ => b
  | _ => if String.eqb a "" || ends_with_slash a then a +:+ b
         else a +:+ "/" +:+ b
  end.

End Py.

(** ** Data of the script *)

(** The exceptions a run can end with.  [RubrikOracleBackupMountCloneError]
    is the script's own error class; the others are raised by the Python
    run time at an unguarded access or conversion. *)
Inductive exn :=
  | ValueError (msg : string)
  | KeyError (key : string)
  | IndexError (msg : string)
  | UnboundLocalError (variable : string)
  | RubrikOracleBackupMountCloneError (msg : string).

Inductive level := DEBUG | INFO | WARNING.

(** The answer to an asynchronous request: the fields the script reads. *)
Record job := { job_id : string; job_status : string }.

(** [rubrik = rbs_oracle_common.RubrikConnection()]: the attributes read. *)
Record connection := { version : string; cluster_id : string; timezone : string }.

(** [oracle_db_info]: the keys read.  [racName] is the only key the script
    tests for; [None] is the key being absent, and a value that is empty (or
    null) is [Some ""], which is false when tested. *)
Record db_info := {
  racName : option string;
  oracleHome : string;
  latestRecoveryPoint : string
}.

(** Objects that are logged through their own text form. *)
Inductive object :=
  | ObjConfiguration
  | ObjList (l : list string)
  | ObjJob (j : job).

(** Everything a run does that can be seen from outside, in order. *)
Inductive event :=
  (* logging *)
  | StreamHandlerAdded (numeric_level : Z)
  | Log (lvl : level) (msg : string)
  | LogObject (lvl : level) (template : string) (obj : object)
  (* the local machine *)
  | ConfigurationRead (file : string)
  | Makedirs (path : string)
  | FileHandlerOpened (logfile : string)
  | PathExists (path : string)
  | Listdir (path : string)
  | SetEnviron (key value : string)
  | FileWritten (path content : string)
  (* rbs_oracle_common *)
  | RubrikConnection
  | RubrikRbsOracleDatabase (database_name database_host : string)
  | GetOracleDbInfo
  | GetRacId (cluster host_target : string)
  | GetHostId (cluster host_target : string)
  | GetTargetId (cluster host_target : string)
  | EpochTime (time tz : string)
  | LiveMount (target_id : string) (time_ms : Z) (mount_path : string)
  | AsyncRequestsWait (id : string) (timeout : Z)
  | SqlplusSysdba (oracle_home sql : string)
  | Rman (oracle_home script role : string)
  | RubrikRbsOracleMount (database_name database_host host_target : string)
  | LiveMountDelete (live_mount_id : string).

(** A call into [rbs_oracle_common]: the backend and the database engine. *)
Definition backend_call (e : event) : bool :=
  match e with
  | RubrikConnection | RubrikRbsOracleDatabase _ _ | GetOracleDbInfo
  | GetRacId _ _ | GetHostId _ _ | GetTargetId _ _ | EpochTime _ _
  | LiveMount _ _ _ | AsyncRequestsWait _ _ | SqlplusSysdba _ _ | Rman _ _ _
  | RubrikRbsOracleMount _ _ _ | LiveMountDelete _ => true
  | _ => false
  end.

(** A change made to the local machine: a directory or file created or
    written, or the process environment changed. *)
Definition local_mutation (e : event) : bool :=
  match e with
  | Makedirs _ | FileHandlerOpened _ | SetEnviron _ _ | FileWritten _ _ => true
  | _ => false
  end.

(** The arguments of [cli], as click passes them. *)
Record Args := {
  source_host_db : string;
  mount_path : string;
  new_oracle_name : string;
  configuration_file : option string;
  time_restore : option string;
  oracle_home : option string;
  parallelism : string;
  no_spfile : option bool;
  no_file_name_check : bool;
  refresh_db : bool;
  control_files : option string;
  db_file_name_convert : option string;
  log_file_name_convert : option string;
  audit_file_dest : option string;
  core_dump_dest : option string;
  log_path : option string;
  debug_level : string
}.

(** What the collaborators answer.  The first argument of every answer is the
    trace up to the call.  [configuration] is the [parameters] section of the
    file as [configparser] presents it (option names in lower case, values as
    [get] returns them), [None] when the file has no such section.  Both
    answers are those of a [read] that returned: a file that does not exist
    (which [read] skips), an empty file, a file with other sections only.  A
    file with text before any section header makes [read] itself raise, and
    has no answer here. *)
Record World := {
  uname_node : string;
  strftime_now : list event → string;
  configuration : list event → string → option (gmap string string);
  os_path_exists : list event → string → bool;
  os_listdir : list event → string → list string;
  rubrik_connection : list event → connection;
  get_oracle_db_info : list event → db_info;
  get_rac_id : list event → string → string → string;
  get_host_id : list event → string → string → string;
  get_target_id : list event → string → string → string;
  epoch_time : list event → string → string → Z;
  live_mount : list event → string → Z → string → job;
  async_requests_wait : list event → string → Z → job;
  sqlplus_sysdba : list event → string → string → string;
  rman : list event → string → string → string → string;
  live_mount_delete : list event → string → job
}.

(** ** The monad: a trace of events and an exception or a value *)

Definition M (A : Type) : Type := list event → (exn + A) * list event.

Global Instance M_ret : MRet M := λ A a tr, (inr a, tr).

Global Instance M_bind : MBind M := λ A B f m tr,
  match m tr with
  | (inr a, tr') => f a tr'
  | (inl e, tr') => (inl e, tr')
  end.

Global Instance M_fmap : FMap M := λ A B f m tr,
  match m tr with
  | (inr a, tr') => (inr (f a), tr')
  | (inl e, tr') => (inl e, tr')
  end.

Definition raise {A} (e : exn) : M A := λ tr, (inl e, tr).

(** An action with no answer. *)
Definition emit (e : event) : M unit := λ tr, (inr (), tr ++ [e]).

(** A call: the answer is computed from the trace before the call. *)
Definition call {A} (e : event) (answer : list event → A) : M A :=
  λ tr, (inr (answer tr), tr ++ [e]).

Definition log (lvl : level) (msg : string) : M unit := emit (Log lvl msg).

(** [l[i]] *)
Definition index {A} (l : list A) (i : nat) : M A :=
  match l !! i with
  | Some x => mret x
  | None => raise (IndexError "list index out of range")
  end.

(** [int(s)].  The text of the error is Python's: the [repr] of the string,
    cut at 200 characters. *)
Definition int (s : string) : M Z :=
  match Py.int s with
  | Some z => mret z
  | None => raise (ValueError ("invalid literal for int() with base 10: " +:+
                               Py.truncate 200 (Py.repr s)))
  end.

(** A double quote, as a string. *)
Definition dquote : string := String (ascii_of_nat 34) "".

(** ** The script *)

(** The local variables of [cli] that later steps read, as they stand once
    a step has run. *)
Record Validated := {
  args : Args;                  (* the arguments, after the configuration file *)
  source_host : string;         (* source_host_db[0] *)
  source_db : string;           (* source_host_db[1] *)
  host_target : string
}.

Record Resolved := {
  validated : Validated;
  rubrik : connection;
  oracle_db_info : db_info;
  target_id : option string;    (* [None]: the name was never bound *)
  time_ms : Z;
  home : string                 (* oracle_home, after line 171 *)
}.

Record Mounted := {
  resolved : Resolved;
  live_mount_directories : list string
}.

Record Discovered := {
  mounted : Mounted;
  backup_path : string;
  live_mount_id : string
}.

Definition settings (d : Discovered) : Args := args (validated (resolved (mounted d))).
Definition source (d : Discovered) : Validated := validated (resolved (mounted d)).
Definition oracle_home_used (d : Discovered) : string := home (resolved (mounted d)).

(** The module-level names of [logging] that hold an [int], which is what
    [getattr(logging, debug_level.upper(), None)] can find among upper-case
    names. *)
Definition logging_levels : list (string * Z) :=
  [("CRITICAL", 50); ("FATAL", 50); ("ERROR", 40); ("WARNING", 30);
   ("WARN", 30); ("INFO", 20); ("DEBUG", 10); ("NOTSET", 0)].

Definition getattr_logging (name : string) : option Z :=
  snd <$> find (λ p, String.eqb (fst p) name) logging_levels.

(** [configparser.RawConfigParser.BOOLEAN_STATES] *)
Definition BOOLEAN_STATES : list (string * bool) :=
  [("1", true); ("yes", true); ("true", true); ("on", true);
   ("0", false); ("no", false); ("false", false); ("off", false)].

(** [section.getboolean(key)]: [None] (the fallback) when the option is
    absent, [ValueError] when its value is not a boolean word. *)
Definition getboolean (section : gmap string string) (key : string) : M (option bool) :=
  match section !! key with
  | None => mret None
  | Some value =>
      match find (λ p, String.eqb (fst p) (Py.lower value)) BOOLEAN_STATES with
      | Some p => mret (Some (snd p))
      | None => raise (ValueError ("Not a boolean: " +:+ value))
      end
  end.

(** [section[key] if key in section.keys() else current] *)
Definition override (section : gmap string string) (key : string)
    (current : option string) : option string :=
  match section !! key with
  | Some value => Some value
  | None => current
  end.

(** The first element of [s.split(sep)], which always exists. *)
Definition first_token (sep : ascii) (s : string) : string :=
  match Py.split sep s with
  | x :: _ => x
  | [] => ""
  end.

(** Lines 229-253: the text of the duplicate script.  [channels] is
    [int(parallelism)]. *)
Definition allocate_channels (channels : Z) (duplicate_commands : string) : string :=
  foldl (λ commands x,
           commands +:+
           Py.format "allocate auxiliary channel aux{} device type disk; "
                     [Py.str_of_nat (x + 1)])
        duplicate_commands (seq 0 (Z.to_nat channels)).

Definition until_time_template : string :=
  "until time " +:+ dquote +:+ "TO_DATE('{}','YYYY-MM-DD HH24:MI:SS')" +:+ dquote +:+ "  ".

(** The time literal of line 235. *)
Definition time_literal (time_restore : string) : string :=
  Py.replace "T" "" time_restore.

Definition set_clause (template : string) (directive : option string)
    (duplicate_commands : string) : string :=
  if Py.truthy directive
  then duplicate_commands +:+ Py.format template [Py.str directive]
  else duplicate_commands.

Definition duplicate_script (channels : Z) (a : Args) (source_db : string) : string :=
  let c := "run { " in
  let c := allocate_channels channels c in
  let c := c +:+ Py.format "duplicate database to {} " [new_oracle_name a] in
  let c := if Py.truthy (time_restore a)
           then c +:+ Py.format until_time_template [time_literal (Py.str (time_restore a))]
           else c in
  let c := if negb (Py.truthy_flag (no_spfile a))
           then c +:+ Py.format "SPFILE parameter_value_convert ('{}','{}') "
                                [source_db; new_oracle_name a]
           else c in
  let c := set_clause "set  control_files = {} " (control_files a) c in
  let c := set_clause "set  db_file_name_convert = {} " (db_file_name_convert a) c in
  let c := set_clause "set  log_file_name_convert = {} " (log_file_name_convert a) c in
  let c := set_clause "set  audit_file_dest = {} " (audit_file_dest a) c in
  let c := set_clause "set  core_dump_dest = {} " (core_dump_dest a) c in
  let c := c +:+ Py.format "BACKUP LOCATION '{}' " [mount_path a] in
  if no_file_name_check a then c +:+ "NOFILENAMECHECK; }" else c +:+ "; }".

(** Line 188: [list(set(new) - set(old))]. *)
Definition new_entries (new old : list string) : list string :=
  elements ((list_to_set new : gset string) ∖ list_to_set old).

(** Line 195: [name.split('_')[1]]. *)
Definition mount_id_of (name : string) : M string :=
  index (Py.split "_" name) 1.

Section Script.

Variable w : World.

(** Lines 87-96: the console handler. *)
Definition logging_setup (debug_level : string) : M unit :=
  match getattr_logging (Py.upper debug_level) with
  | None => raise (ValueError (Py.format "Invalid log level: {}" [debug_level]))
  | Some numeric_level => emit (StreamHandlerAdded numeric_level)
  end.

(** Lines 98-124: the configuration file. *)
Definition read_configuration (a : Args) : M Args :=
  if Py.truthy (configuration_file a) then
    section ← call (ConfigurationRead (Py.str (configuration_file a)))
                   (λ tr, configuration w tr (Py.str (configuration_file a)));
    match section with
    | None => raise (KeyError "parameters")
    | Some parameters =>
        let parallelism' := default (parallelism a) (parameters !! "parallelism") in
        no_spfile' ← (if decide (is_Some (parameters !! "no_spfile"))
                      then getboolean parameters "spfile"
                      else mret (no_spfile a));
        no_file_name_check' ← (if decide (is_Some (parameters !! "no_file_name_check"))
                               then Py.truthy_flag <$> getboolean parameters "no_file_name_check"
                               else mret (no_file_name_check a));
        refresh_db' ← (if decide (is_Some (parameters !! "refresh_db"))
                       then Py.truthy_flag <$> getboolean parameters "refresh_db"
                       else mret (refresh_db a));
        emit (LogObject DEBUG "Parameters for duplicate loaded from file: {}." ObjConfiguration);;
        mret {| source_host_db := source_host_db a;
                mount_path := mount_path a;
                new_oracle_name := new_oracle_name a;
                configuration_file := configuration_file a;
                time_restore := override parameters "time_restore" (time_restore a);
                oracle_home := oracle_home a;
                parallelism := parallelism';
                no_spfile := no_spfile';
                no_file_name_check := no_file_name_check';
                refresh_db := refresh_db';
                control_files := override parameters "control_files" (control_files a);
                db_file_name_convert :=
                  override parameters "db_file_name_convert" (db_file_name_convert a);
                log_file_name_convert :=
                  override parameters "log_file_name_convert" (log_file_name_convert a);
                audit_file_dest := override parameters "audit_file_dest" (audit_file_dest a);
                core_dump_dest := override parameters "core_dump_dest" (core_dump_dest a);
                log_path := override parameters "log_path" (log_path a);
                debug_level := debug_level a |}
    end
  else mret a.

(** Lines 127-134: the log file. *)
Definition file_logging (a : Args) : M unit :=
  if Py.truthy (log_path a) then
    emit (Makedirs (Py.str (log_path a)));;
    stamp ← (λ tr, (inr (strftime_now w tr), tr));
    emit (FileHandlerOpened
            (Py.path_join (Py.str (log_path a))
               (Py.format "{}_Clone_{}.log" [new_oracle_name a; stamp])))
  else mret ().

(** Lines 136-145: the two checks on the new name. *)
Definition validate_input (a : Args) : M Validated :=
  let source_host_db := Py.split ":" (source_host_db a) in
  let host_target := first_token "." (uname_node w) in
  log DEBUG (Py.format "The hostname used for the target host is {}" [host_target]);;
  if (8 <? String.length (new_oracle_name a))%nat then
    log DEBUG (Py.format "The new oracle name: {} is too long. Oracle names must be 8 characters or less. Aborting clone" [new_oracle_name a]);;
    raise (RubrikOracleBackupMountCloneError
             (Py.format "The new oracle name: {} is too long. Oracle names must be 8 characters or less." [new_oracle_name a]))
  else
    source_db ← index source_host_db 1;
    if String.eqb (new_oracle_name a) source_db then
      log DEBUG (Py.format "The new oracle db name {} cannot be the same as the source db name {} " [new_oracle_name a; source_db]);;
      raise (RubrikOracleBackupMountCloneError
               (Py.format "The new oracle db name {} cannot be the same as the source db name {} " [new_oracle_name a; source_db]))
    else
      source_host ← index source_host_db 0;
      mret {| args := a; source_host := source_host; source_db := source_db;
              host_target := host_target |}.

(** Lines 87-124: the arguments as they stand after the configuration
    file. *)
Definition configured (a : Args) : M Args :=
  logging_setup (debug_level a);;
  read_configuration a.

(** Lines 87-145. *)
Definition prepare (a : Args) : M Validated :=
  a' ← configured a;
  file_logging a';;
  validate_input a'.

(** Line 152: the test that the cluster is older than 5.2.1, with the
    conversions and accesses in the order Python makes them. *)
Definition is_pre_521 (cdm_version : list string) : M bool :=
  major ← (index cdm_version 0 ≫= int);
  if negb (major <? 6) then mret false else
  minor ← (index cdm_version 1 ≫= int);
  if negb (minor <? 3) then mret false else
  minor' ← (index cdm_version 1 ≫= int);
  if minor' <? 2 then mret true else
  patch ← (index cdm_version 2 ≫= int);
  mret (patch <? 1).

(** Lines 147-161: the connection and the target. *)
Definition resolve_target (v : Validated) : M (connection * db_info * option string) :=
  rubrik ← call RubrikConnection (rubrik_connection w);
  emit (RubrikRbsOracleDatabase (source_db v) (source_host v));;
  oracle_db_info ← call GetOracleDbInfo (get_oracle_db_info w);
  let cdm_version := Py.split "." (first_token "-" (version rubrik)) in
  pre ← is_pre_521 cdm_version;
  if (pre : bool) then
    emit (LogObject INFO "Cluster version {} is pre 5.2.1" (ObjList cdm_version));;
    match racName oracle_db_info with
    | Some rac =>
        if negb (String.eqb rac "") then
          target_id ← call (GetRacId (cluster_id rubrik) (host_target v))
                           (λ tr, get_rac_id w tr (cluster_id rubrik) (host_target v));
          mret (rubrik, oracle_db_info, Some target_id)
        else
          target_id ← call (GetHostId (cluster_id rubrik) (host_target v))
                           (λ tr, get_host_id w tr (cluster_id rubrik) (host_target v));
          mret (rubrik, oracle_db_info, Some target_id)
    | None => mret (rubrik, oracle_db_info, None)
    end
  else
    v0 ← index cdm_version 0;
    v1 ← index cdm_version 1;
    v2 ← index cdm_version 2;
    log INFO (Py.format "Cluster version {}.{}.{} is post 5.2.1" [v0; v1; v2]);;
    target_id ← call (GetTargetId (cluster_id rubrik) (host_target v))
                     (λ tr, get_target_id w tr (cluster_id rubrik) (host_target v));
    mret (rubrik, oracle_db_info, Some target_id).

(** Lines 163-168: the time of the mount. *)
Definition resolve_time (a : Args) (rubrik : connection) (oracle_db_info : db_info) : M Z :=
  if Py.truthy (time_restore a) then
    time_ms ← call (EpochTime (Py.str (time_restore a)) (timezone rubrik))
                   (λ tr, epoch_time w tr (Py.str (time_restore a)) (timezone rubrik));
    log WARNING (Py.format "Materializing backup set from time {} for mount." [Py.str (time_restore a)]);;
    mret time_ms
  else
    log WARNING "Using most recent recovery point for mount.";;
    call (EpochTime (latestRecoveryPoint oracle_db_info) (timezone rubrik))
         (λ tr, epoch_time w tr (latestRecoveryPoint oracle_db_info) (timezone rubrik)).

(** Lines 170-174: ORACLE_HOME. *)
Definition check_oracle_home (a : Args) (oracle_db_info : db_info) (host_target : string) : M string :=
  let oracle_home := if Py.truthy (oracle_home a) then Py.str (oracle_home a)
                     else oracleHome oracle_db_info in
  present ← call (PathExists oracle_home) (λ tr, os_path_exists w tr oracle_home);
  if negb (present : bool) then
    log DEBUG (Py.format "The ORACLE_HOME: {} does not exist on the target host: {}" [oracle_home; host_target]);;
    raise (RubrikOracleBackupMountCloneError
             (Py.format "The ORACLE_HOME: {} does not exist on the target host: {}" [oracle_home; host_target]))
  else mret oracle_home.

(** Lines 147-174. *)
Definition resolve (v : Validated) : M Resolved :=
  '(rubrik, oracle_db_info, target_id) ← resolve_target v;
  time_ms ← resolve_time (args v) rubrik oracle_db_info;
  oracle_home ← check_oracle_home (args v) oracle_db_info (host_target v);
  mret {| validated := v; rubrik := rubrik; oracle_db_info := oracle_db_info;
          target_id := target_id; time_ms := time_ms; home := oracle_home |}.

(** Lines 176-185: the first listing and the live mount. *)
Definition mount (r : Resolved) : M Mounted :=
  let v := validated r in
  let mount_path := mount_path (args v) in
  live_mount_directories ← call (Listdir mount_path) (λ tr, os_listdir w tr mount_path);
  log WARNING (Py.format "Starting the mount of the requested {} backup pieces on {}." [source_db v; host_target v]);;
  target ← match target_id r with
           | Some t => mret t
           | None => raise (UnboundLocalError "target_id")
           end;
  live_mount_info ← call (LiveMount target (time_ms r) mount_path)
                         (λ tr, live_mount w tr target (time_ms r) mount_path);
  live_mount_info ← call (AsyncRequestsWait (job_id live_mount_info) 20)
                         (λ tr, async_requests_wait w tr (job_id live_mount_info) 20);
  emit (LogObject DEBUG "Backup Live Mount Asyc Request: {}" (ObjJob live_mount_info));;
  log INFO (Py.format "Async request completed with status: {}" [job_status live_mount_info]);;
  if negb (String.eqb (job_status live_mount_info) "SUCCEEDED") then
    log DEBUG (Py.format "Mount of backup files did not complete successfully. Mount ended with status {}" [job_status live_mount_info]);;
    raise (RubrikOracleBackupMountCloneError
             (Py.format "Mount of backup files did not complete successfully. Mount ended with status {}" [job_status live_mount_info]))
  else
    log WARNING "Live mount of the backup files completed.";;
    mret {| resolved := r; live_mount_directories := live_mount_directories |}.

(** Lines 187-193: the new directory.  Returns [live_mount_directory] and
    [backup_path]. *)
Definition find_backup_path (m : Mounted) : M (list string * string) :=
  let mount_path := mount_path (args (validated (resolved m))) in
  new_live_mount_directories ← call (Listdir mount_path) (λ tr, os_listdir w tr mount_path);
  let live_mount_directory :=
    new_entries new_live_mount_directories (live_mount_directories m) in
  if decide (length live_mount_directory = 1%nat) then
    entry ← index live_mount_directory 0;
    mret (live_mount_directory, Py.path_join mount_path entry)
  else
    log DEBUG (Py.format "Multiple directories were created in {} during this operation. Live mount directory cannot be determined" [mount_path]);;
    raise (RubrikOracleBackupMountCloneError
             (Py.format "Multiple directories were created in {} during this operation. Live mount directory cannot be determined" [mount_path])).

(** Lines 187-196: the new directory and the identifier in its name. *)
Definition discover (m : Mounted) : M Discovered :=
  '(live_mount_directory, backup_path) ← find_backup_path m;
  log INFO (Py.format "Using the live mount path: {}" [backup_path]);;
  entry ← index live_mount_directory 0;
  live_mount_id ← mount_id_of entry;
  log DEBUG (Py.format "Live mount ID is {}" [live_mount_id]);;
  mret {| mounted := m; backup_path := backup_path; live_mount_id := live_mount_id |}.

(** Lines 205-217: starting the auxiliary instance; the answer of the
    database engine is [sql_return]. *)
Definition start_auxiliary (a : Args) (oracle_home : string) : M string :=
  if Py.truthy_flag (no_spfile a) then
    log WARNING "Starting auxiliary instance";;
    sql_return ← call (SqlplusSysdba oracle_home "startup nomount")
                      (λ tr, sqlplus_sysdba w tr oracle_home "startup nomount");
    log INFO sql_return;;
    mret sql_return
  else
    log WARNING "Creating minimal init file to start instance";;
    let init_file :=
      Py.path_join (Py.path_join oracle_home "dbs")
                   (Py.format "init{}.ora" [new_oracle_name a]) in
    log DEBUG (Py.format "Creating new temporary init file {}" [init_file]);;
    emit (FileWritten init_file (Py.format "db_name={}" [new_oracle_name a] +:+ String (ascii_of_nat 10) ""));;
    log WARNING "Starting auxiliary instance";;
    let sql := Py.format "startup nomount pfile='{}'" [init_file] in
    sql_return ← call (SqlplusSysdba oracle_home sql)
                      (λ tr, sqlplus_sysdba w tr oracle_home sql);
    log INFO sql_return;;
    mret sql_return.

(** Lines 198-226: the instance. *)
Definition bootstrap (d : Discovered) : M Discovered :=
  let a := settings d in
  let oracle_home := oracle_home_used d in
  emit (SetEnviron "ORACLE_HOME" oracle_home);;
  emit (SetEnviron "ORACLE_SID" (new_oracle_name a));;
  log DEBUG (Py.format "Setting env variable ORACLE_HOME={}, ORACLE_SID={}." [oracle_home; new_oracle_name a]);;
  (if refresh_db a then
     log WARNING (Py.format "Shutting down {} database for refresh" [new_oracle_name a]);;
     answer ← call (SqlplusSysdba oracle_home "shutdown immediate;")
                   (λ tr, sqlplus_sysdba w tr oracle_home "shutdown immediate;");
     log INFO answer
   else mret ());;
  sql_return ← start_auxiliary a oracle_home;
  if Py.contains "ORA-01081: cannot start already-running ORACLE" sql_return then
    log DEBUG (Py.format "There is an instance of {} all ready running on this host. Aborting clone" [new_oracle_name a]);;
    raise (RubrikOracleBackupMountCloneError
             (Py.format "There is an instance of {} all ready running on this host or refreshed DB did not start cleanly. Aborting clone" [new_oracle_name a]))
  else
    sql_return ← call (SqlplusSysdba oracle_home "select instance_name from v$instance;")
                      (λ tr, sqlplus_sysdba w tr oracle_home "select instance_name from v$instance;");
    log INFO sql_return;;
    if negb (Py.contains (new_oracle_name a) sql_return) then
      log DEBUG (Py.format "DB Instance check failed. Instance name is not {}. Aborting clone" [new_oracle_name a]);;
      raise (RubrikOracleBackupMountCloneError
               (Py.format "DB Instance check failed. Instance name is not {}. Aborting clone" [new_oracle_name a]))
    else mret d.

(** Lines 228-258: the duplicate script and its execution. *)
Definition duplicate (d : Discovered) : M Discovered :=
  let a := settings d in
  let v := source d in
  log WARNING (Py.format "Beginning duplicate of {} to {} on host {}." [source_db v; new_oracle_name a; source_host v]);;
  channels ← int (parallelism a);
  let duplicate_commands := duplicate_script channels a (source_db v) in
  log DEBUG (Py.format "Duplicate script: {}" [duplicate_commands]);;
  answer ← call (Rman (oracle_home_used d) duplicate_commands "auxiliary")
                (λ tr, rman w tr (oracle_home_used d) duplicate_commands "auxiliary");
  log INFO answer;;
  log WARNING (Py.format "Duplicate of {} database complete." [new_oracle_name a]);;
  mret d.

(** Lines 260-273: the unmount. *)
Definition unmount (d : Discovered) : M unit :=
  let v := source d in
  emit (RubrikRbsOracleMount (source_db v) (source_host v) (host_target v));;
  log WARNING "Unmounting backups.";;
  delete_request ← call (LiveMountDelete (live_mount_id d))
                        (λ tr, live_mount_delete w tr (live_mount_id d));
  delete_request ← call (AsyncRequestsWait (job_id delete_request) 12)
                        (λ tr, async_requests_wait w tr (job_id delete_request) 12);
  log INFO (Py.format "Async request completed with status: {}" [job_status delete_request]);;
  emit (LogObject DEBUG "{}" (ObjJob delete_request));;
  (if negb (String.eqb (job_status delete_request) "SUCCEEDED") then
     log WARNING (Py.format "Unmount of backup files failed with status: {}" [job_status delete_request])
   else
     log INFO (Py.format "Live mount of backup data files with id: {} has been unmounted." [live_mount_id d]);;
     log WARNING "Backups unmounted");;
  log WARNING "Database clone complete".

(** The steps of [cli] up to each of its later parts. *)
Definition until_mounted (a : Args) : M Mounted :=
  (prepare a ≫= resolve) ≫= mount.

Definition until_discovered (a : Args) : M Discovered :=
  until_mounted a ≫= discover.

Definition until_restored (a : Args) : M Discovered :=
  (until_discovered a ≫= bootstrap) ≫= duplicate.

(** [cli], lines 30-273. *)
Definition cli (a : Args) : M unit :=
  until_restored a ≫= unmount.

End Script.

(** A run from the empty trace. *)
Definition run {A} (m : M A) : (exn + A) * list event := m [].

(** The trace when the auxiliary instance is about to be started (lines
    198-204): the two environment variables are set and, for a refresh, the
    existing database has been told to shut down. *)
Definition before_startup (w : World) (d : Discovered) (tr : list event) : list event :=
  let a := settings d in
  let oracle_home := oracle_home_used d in
  let tr0 := tr ++ [SetEnviron "ORACLE_HOME" oracle_home;
                    SetEnviron "ORACLE_SID" (new_oracle_name a);
                    Log DEBUG (Py.format "Setting env variable ORACLE_HOME={}, ORACLE_SID={}."
                                 [oracle_home; new_oracle_name a])] in
  if refresh_db a then
    let tr1 := tr0 ++ [Log WARNING (Py.format "Shutting down {} database for refresh"
                                      [new_oracle_name a])] in
    tr1 ++ [SqlplusSysdba oracle_home "shutdown immediate;";
            Log INFO (sqlplus_sysdba w tr1 oracle_home "shutdown immediate;")]
  else tr0.

(** ** A concrete world and request, for running the script *)

Module Scenario.

Definition is_live_mount (e : event) : bool :=
  match e with LiveMount _ _ _ => true | _ => false end.

(** The mount root holds one older directory; the mount adds [added]. *)
Definition listing (added : list string) (tr : list event) : list string :=
  if existsb is_live_mount tr then "ORCLO_11111_files" :: added
  else ["ORCLO_11111_files"].

Definition world (cdm : string) (rac : option string) (added : list string)
    (unmount_status : string) (parameters : option (gmap string string)) : World :=
  {| uname_node := "jz-targethost-1.example.com";
     strftime_now := λ _, "20201106-000600";
     configuration := λ _ _, parameters;
     os_path_exists := λ _ _, true;
     os_listdir := λ tr _, listing added tr;
     rubrik_connection := λ _, {| version := cdm; cluster_id := "cluster-1";
                                  timezone := "America/Chicago" |};
     get_oracle_db_info := λ _, {| racName := rac;
                                   oracleHome := "/u01/app/oracle/product/12.2.0/dbhome_1";
                                   latestRecoveryPoint := "2020-11-08T00:06:00" |};
     get_rac_id := λ _ _ _, "rac-id";
     get_host_id := λ _ _ _, "host-id";
     get_target_id := λ _ _ _, "target-id";
     epoch_time := λ _ _ _, 1604793960000;
     live_mount := λ _ _ _ _, {| job_id := "MOUNT_1"; job_status := "QUEUED" |};
     async_requests_wait := λ _ id _,
       if String.eqb id "MOUNT_1" then {| job_id := id; job_status := "SUCCEEDED" |}
       else {| job_id := id; job_status := unmount_status |};
     sqlplus_sysdba := λ _ _ sql,
       if Py.contains "select" sql then "INSTANCE_NAME: oracln"
       else "ORACLE instance started.";
     rman := λ _ _ _ _, "Finished Duplicate Db";
     live_mount_delete := λ _ _, {| job_id := "UNMOUNT_1"; job_status := "QUEUED" |} |}.

Definition usual : World :=
  world "5.3.1-p2-19196" None ["ORCLN_12345_files"] "SUCCEEDED" None.

(** A request, with the options the examples vary. *)
Definition make_request (source name : string) (file time : option string)
    (spfile : option bool) (check refresh : bool) (logs : option string) : Args :=
  {| source_host_db := source;
     mount_path := "/u02/oradata/restore";
     new_oracle_name := name;
     configuration_file := file;
     time_restore := time;
     oracle_home := None;
     parallelism := "4";
     no_spfile := spfile;
     no_file_name_check := check;
     refresh_db := refresh;
     control_files := None;
     db_file_name_convert := None;
     log_file_name_convert := None;
     audit_file_dest := None;
     core_dump_dest := None;
     log_path := logs;
     debug_level := "WARNING" |}.

Definition request : Args :=
  make_request "jz-sourcehost-1:ora1db" "oracln" None None (Some false) false false None.

Definition validated_request : Validated :=
  {| args := request; source_host := "jz-sourcehost-1"; source_db := "ora1db";
     host_target := "jz-targethost-1" |}.

Definition resolved_request : Resolved :=
  {| validated := validated_request;
     rubrik := rubrik_connection usual [];
     oracle_db_info := get_oracle_db_info usual [];
     target_id := Some "target-id";
     time_ms := 1604793960000;
     home := "/u01/app/oracle/product/12.2.0/dbhome_1" |}.

(** Refresh asked for, without [no_file_name_check]. *)
Definition refresh_request : Args :=
  make_request "jz-sourcehost-1:ora1db" "oracln" None None (Some false) false true None.

(** A restore time, as the help text of the option writes it. *)
Definition timed_request : Args :=
  make_request "jz-sourcehost-1:ora1db" "oracln" None (Some "2019-04-30T18:23:21")
               (Some false) false false None.



Definition short_name_no_colon : Args :=
  make_request "jz-sourcehost-1" "oracln" None None (Some false) false false None.

(** A configuration file that sets [no_spfile] and [oracle_home], read for
    a request that passes [--no_spfile] itself. *)
Definition configuration_file_1 : gmap string string :=
  <["oracle_home" := "/u01/app/oracle/product/19.0.0/dbhome_1"]> {["no_spfile" := "true"]}.

Definition configured_request : Args :=
  make_request "jz-sourcehost-1:ora1db" "oracln" (Some "/home/oracle/clone_config.txt")
               None (Some true) false false None.

Definition configured_request_read : Args :=
  make_request "jz-sourcehost-1:ora1db" "oracln" (Some "/home/oracle/clone_config.txt")
               None None false false None.

(** Worlds in which the unmount fails, and in which the mount directory has
    no underscore in its name. *)
Definition unmount_fails : World :=
  world "5.3.1-p2-19196" None ["ORCLN_12345_files"] "FAILED" None.

Definition no_underscore : World :=
  world "5.3.1-p2-19196" None ["ORCLN12345files"] "SUCCEEDED" None.

(** The local variables of the usual run after the mount, after the
    discovery of the new directory, and the traces up to there. *)
Definition mounted_request : Mounted :=
  {| resolved := resolved_request; live_mount_directories := ["ORCLO_11111_files"] |}.

Definition discovered_request : Discovered :=
  {| mounted := mounted_request;
     backup_path := "/u02/oradata/restore/ORCLN_12345_files";
     live_mount_id := "12345" |}.

Definition trace_until_mounted : list event :=
  Eval vm_compute in snd (until_mounted usual request []).

Definition trace_until_restored : list event :=
  Eval vm_compute in snd (until_restored usual request []).

(** A request with another log level. *)
Definition with_debug_level (a : Args) (level : string) : Args :=
  {| source_host_db := source_host_db a;
     mount_path := mount_path a;
     new_oracle_name := new_oracle_name a;
     configuration_file := configuration_file a;
     time_restore := time_restore a;
     oracle_home := oracle_home a;
     parallelism := parallelism a;
     no_spfile := no_spfile a;
     no_file_name_check := no_file_name_check a;
     refresh_db := refresh_db a;
     control_files := control_files a;
     db_file_name_convert := db_file_name_convert a;
     log_file_name_convert := log_file_name_convert a;
     audit_file_dest := audit_file_dest a;
     core_dump_dest := core_dump_dest a;
     log_path := log_path a;
     debug_level := level |}.

(** A configuration file that sets text options and flags. *)
Definition configuration_file_2 : gmap string string :=
  <["parallelism" := "8"]>
  (<["time_restore" := "2020-11-08T00:06:00"]>
  (<["refresh_db" := "True"]>
  (<["no_file_name_check" := "yes"]>
  {["log_path" := "/home/oracle/clone_logs"]}))).

Definition configured_world_2 : World :=
  world "5.3.1-p2-19196" None ["ORCLN_12345_files"] "SUCCEEDED" (Some configuration_file_2).

Definition configured_request_2 : Args :=
  make_request "jz-sourcehost-1:ora1db" "oracln" (Some "/home/oracle/clone_config.txt")
               (Some "2019-04-30T18:23:21") (Some false) false false None.

Definition configured_request_2_read : Args :=
  Eval vm_compute in
    match fst (read_configuration configured_world_2 configured_request_2 []) with
    | inr a => a
    | inl _ => configured_request_2
    end.

(** The usual world with another answer to the asynchronous requests and to
    the test of a path. *)
Definition world_with (w : World) (waits : list event → string → Z → job)
    (paths : list event → string → bool) : World :=
  {| uname_node := uname_node w;
     strftime_now := strftime_now w;
     configuration := configuration w;
     os_path_exists := paths;
     os_listdir := os_listdir w;
     rubrik_connection := rubrik_connection w;
     get_oracle_db_info := get_oracle_db_info w;
     get_rac_id := get_rac_id w;
     get_host_id := get_host_id w;
     get_target_id := get_target_id w;
     epoch_time := epoch_time w;
     live_mount := live_mount w;
     async_requests_wait := waits;
     sqlplus_sysdba := sqlplus_sysdba w;
     rman := rman w;
     live_mount_delete := live_mount_delete w |}.

(** The mount fails. *)
Definition mount_fails : World :=
  world_with usual (λ _ id _, {| job_id := id; job_status := "FAILED" |})
             (os_path_exists usual).

(** No ORACLE_HOME on the target host. *)
Definition home_missing : World :=
  world_with usual (async_requests_wait usual) (λ _ _, false).

(** An older cluster, with a source that has a [racName], and with one that
    has not. *)
Definition cluster_5_2_0 (rac : option string) : World :=
  world "5.2.0-p1-1234" rac ["ORCLN_12345_files"] "SUCCEEDED" None.

(** A cluster whose version has two parts only. *)
Definition cluster_6_0 : World :=
  world "6.0" None ["ORCLN_12345_files"] "SUCCEEDED" None.

Definition trace_prepared : list event :=
  Eval vm_compute in snd (prepare usual request []).

Definition trace_resolved : list event :=
  Eval vm_compute in snd ((prepare usual request ≫= resolve usual) []).

Definition resolved_world_5_2_0 : Resolved :=
  {| validated := validated_request;
     rubrik := rubrik_connection (cluster_5_2_0 None) [];
     oracle_db_info := get_oracle_db_info (cluster_5_2_0 None) [];
     target_id := None;
     time_ms := 1604793960000;
     home := "/u01/app/oracle/product/12.2.0/dbhome_1" |}.

Definition trace_resolved_5_2_0 : list event :=
  Eval vm_compute in
    snd ((prepare (cluster_5_2_0 None) request ≫= resolve (cluster_5_2_0 None)) []).

(** The usual world with other answers of the database engine. *)
Definition with_sqlplus (w : World) (answers : list event → string → string → string) : World :=
  {| uname_node := uname_node w;
     strftime_now := strftime_now w;
     configuration := configuration w;
     os_path_exists := os_path_exists w;
     os_listdir := os_listdir w;
     rubrik_connection := rubrik_connection w;
     get_oracle_db_info := get_oracle_db_info w;
     get_rac_id := get_rac_id w;
     get_host_id := get_host_id w;
     get_target_id := get_target_id w;
     epoch_time := epoch_time w;
     live_mount := live_mount w;
     async_requests_wait := async_requests_wait w;
     sqlplus_sysdba := answers;
     rman := rman w;
     live_mount_delete := live_mount_delete w |}.

(** An instance of the new name is running already. *)
Definition already_running : World :=
  with_sqlplus usual (λ _ _ _, "ORA-01081: cannot start already-running ORACLE - shut it down first").

(** The instance that answers is another one. *)
Definition other_instance : World :=
  with_sqlplus usual (λ _ _ sql,
    if Py.contains "select" sql then "INSTANCE_NAME: ora1db" else "ORACLE instance started.").

Definition trace_until_discovered : list event :=
  Eval vm_compute in snd (until_discovered usual request []).

Definition trace_until_started : list event :=
  Eval vm_compute in snd ((until_discovered usual request ≫= bootstrap usual) []).

(** A request with another parallelism. *)
Definition with_parallelism (a : Args) (p : string) : Args :=
  {| source_host_db := source_host_db a;
     mount_path := mount_path a;
     new_oracle_name := new_oracle_name a;
     configuration_file := configuration_file a;
     time_restore := time_restore a;
     oracle_home := oracle_home a;
     parallelism := p;
     no_spfile := no_spfile a;
     no_file_name_check := no_file_name_check a;
     refresh_db := refresh_db a;
     control_files := control_files a;
     db_file_name_convert := db_file_name_convert a;
     log_file_name_convert := log_file_name_convert a;
     audit_file_dest := audit_file_dest a;
     core_dump_dest := core_dump_dest a;
     log_path := log_path a;
     debug_level := debug_level a |}.

(** The local variables after the discovery, for a request that differs from
    the usual one in options that play no part before. *)
Definition discovered_with (a : Args) : Discovered :=
  {| mounted :=
       {| resolved :=
            {| validated := {| args := a; source_host := "jz-sourcehost-1";
                               source_db := "ora1db"; host_target := "jz-targethost-1" |};
               rubrik := rubrik resolved_request;
               oracle_db_info := oracle_db_info resolved_request;
               target_id := Some "target-id";
               time_ms := 1604793960000;
               home := "/u01/app/oracle/product/12.2.0/dbhome_1" |};
          live_mount_directories := ["ORCLO_11111_files"] |};
     backup_path := "/u02/oradata/restore/ORCLN_12345_files";
     live_mount_id := "12345" |}.

Definition trace_instance_started : list event :=
  Eval vm_compute in
    snd (start_auxiliary usual request "/u01/app/oracle/product/12.2.0/dbhome_1"
           (before_startup usual discovered_request trace_until_discovered)).

Definition trace_instance_refused : list event :=
  Eval vm_compute in
    snd (start_auxiliary already_running request "/u01/app/oracle/product/12.2.0/dbhome_1"
           (before_startup already_running discovered_request trace_until_discovered)).

End Scenario.

(** ** Vocabulary of the properties *)


(** The log directory and log file of a run whose trace is [tr] when file
    logging starts. *)
Definition log_file_events (w : World) (a : Args) (tr : list event) : list event :=
  if Py.truthy (log_path a)
  then [Makedirs (Py.str (log_path a));
        FileHandlerOpened
          (Py.path_join (Py.str (log_path a))
             (Py.format "{}_Clone_{}.log"
                [new_oracle_name a;
                 strftime_now w (tr ++ [Makedirs (Py.str (log_path a))])]))]
  else [].

(** Events that neither reach the backend nor change the local machine. *)
Definition quiet (l : list event) : Prop :=
  existsb backend_call l = false ∧ List.filter local_mutation l = [].

(** Equality of events and exceptions is decidable. *)
Global Instance level_eq_dec : EqDecision level.
Proof. solve_decision. Defined.

Global Instance job_eq_dec : EqDecision job.
Proof. solve_decision. Defined.

Global Instance object_eq_dec : EqDecision object.
Proof. solve_decision. Defined.

Global Instance event_eq_dec : EqDecision event.
Proof. solve_decision. Defined.

Global Instance exn_eq_dec : EqDecision exn.
Proof. solve_decision. Defined.

(** The files a trace writes, with their content. *)
Definition files_written (tr : list event) : list (string * string) :=
  omap (λ e, match e with FileWritten path content => Some (path, content) | _ => None end) tr.

Definition newline : string := String (ascii_of_nat 10) "".

(** The claims as the specification words them, for comparison with the
    script. *)

(** A version below 5.2.1, comparing major, then minor, then patch, each as a
    number. *)
Definition spec_below_5_2_1 (major minor patch : Z) : bool :=
  (major <? 5) ||
  ((major =? 5) && ((minor <? 2) || ((minor =? 2) && (patch <? 1)))).

(** A literal that has, position by position, the form in which the mask
    'YYYY-MM-DD HH24:MI:SS' is written: in [shape], [d] stands for a digit and
    every other character for itself.  This is the form of the text only;
    which texts the database engine accepts for the mask is not said here. *)
Fixpoint has_shape (shape literal : string) : bool :=
  match shape, literal with
  | "", "" => true
  | String p shape', String c literal' =>
      (if Ascii.eqb p "d" then bool_decide (is_Some (Ascii.is_nat c)) else Ascii.eqb p c)
      && has_shape shape' literal'
  | _, _ => false
  end.

Definition spec_conforms_to_date_mask (literal : string) : bool :=
  has_shape "dddd-dd-dd dd:dd:dd" literal.

(** ** Footprints: what a part of the script can do and how it can fail *)

(** [within E P m]: whatever the trace before, [m] only adds events that
    satisfy [P], and if it ends with an exception the exception satisfies
    [E]. *)
Definition within (E : exn → Prop) (P : event → Prop) {A} (m : M A) : Prop :=
  ∀ tr, ∃ l, snd (m tr) = tr ++ l ∧ Forall P l ∧ ∀ e, fst (m tr) = inl e → E e.

(** The four statements the script sends to the database engine. *)
Definition script_sql (sql : string) : Prop :=
  sql = "shutdown immediate;" ∨
  sql = "startup nomount" ∨
  (∃ init_file, sql = "startup nomount pfile='" +:+ init_file +:+ "'") ∨
  sql = "select instance_name from v$instance;".

(** Lines 87-145. *)
Definition prepare_footprint (e : event) : Prop :=
  match e with
  | StreamHandlerAdded _ | ConfigurationRead _ | Makedirs _ | FileHandlerOpened _ => True
  | Log DEBUG _ => True
  | LogObject DEBUG _ ObjConfiguration => True
  | _ => False
  end.

Definition prepare_errors (e : exn) : Prop :=
  match e with
  | UnboundLocalError _ => False
  | _ => True
  end.

(** Lines 147-174. *)
Definition resolve_footprint (e : event) : Prop :=
  match e with
  | RubrikConnection | RubrikRbsOracleDatabase _ _ | GetOracleDbInfo
  | GetRacId _ _ | GetHostId _ _ | GetTargetId _ _ | EpochTime _ _ | PathExists _ => True
  | Log _ _ => True
  | LogObject INFO _ (ObjList _) => True
  | _ => False
  end.

Definition resolve_errors (e : exn) : Prop :=
  match e with
  | ValueError _ | IndexError _ | RubrikOracleBackupMountCloneError _ => True
  | _ => False
  end.

(** Lines 176-185. *)
Definition mount_footprint (e : event) : Prop :=
  match e with
  | Listdir _ | LiveMount _ _ _ => True
  | AsyncRequestsWait _ timeout => timeout = 20
  | Log _ _ => True
  | LogObject DEBUG _ (ObjJob _) => True
  | _ => False
  end.

Definition mount_errors (e : exn) : Prop :=
  match e with
  | UnboundLocalError _ | RubrikOracleBackupMountCloneError _ => True
  | _ => False
  end.

(** Lines 187-196. *)
Definition discover_footprint (e : event) : Prop :=
  match e with
  | Listdir _ | Log _ _ => True
  | _ => False
  end.

Definition discover_errors (e : exn) : Prop :=
  match e with
  | IndexError _ | RubrikOracleBackupMountCloneError _ => True
  | _ => False
  end.

(** Lines 198-226. *)
Definition bootstrap_footprint (e : event) : Prop :=
  match e with
  | SetEnviron key _ => key = "ORACLE_HOME" ∨ key = "ORACLE_SID"
  | FileWritten _ content => ∃ name, content = "db_name=" +:+ name +:+ newline
  | SqlplusSysdba _ sql => script_sql sql
  | Log _ _ => True
  | _ => False
  end.

Definition bootstrap_errors (e : exn) : Prop :=
  match e with
  | RubrikOracleBackupMountCloneError _ => True
  | _ => False
  end.

(** Lines 228-258. *)
Definition duplicate_footprint (e : event) : Prop :=
  match e with
  | Rman _ _ role => role = "auxiliary"
  | Log _ _ => True
  | _ => False
  end.

Definition duplicate_errors (e : exn) : Prop :=
  match e with
  | ValueError _ => True
  | _ => False
  end.

(** Lines 260-273. *)
Definition unmount_footprint (e : event) : Prop :=
  match e with
  | RubrikRbsOracleMount _ _ _ | LiveMountDelete _ => True
  | AsyncRequestsWait _ timeout => timeout = 12
  | Log _ _ => True
  | LogObject DEBUG _ (ObjJob _) => True
  | _ => False
  end.

(** Everything before the unmount, and the whole of [cli]. *)
Definition restore_footprint (e : event) : Prop :=
  prepare_footprint e ∨ resolve_footprint e ∨ mount_footprint e ∨
  discover_footprint e ∨ bootstrap_footprint e ∨ duplicate_footprint e.

Definition cli_footprint (e : event) : Prop :=
  restore_footprint e ∨ unmount_footprint e.

(** The word of a boolean option of the configuration file. *)
Definition boolean_word (value : string) : option bool :=
  snd <$> find (λ p, String.eqb (fst p) (Py.lower value)) BOOLEAN_STATES.

(** The clause that allocates channel [k]. *)
Definition channel_clause (k : nat) : string :=
  "allocate auxiliary channel aux" +:+ Py.str_of_nat k +:+ " device type disk; ".

Definition is_live_mount_delete (e : event) : bool :=
  match e with LiveMountDelete _ => true | _ => false end.

(** What the configuration file does to the arguments: [a'] is [a] with the
    options of [parameters] laid over it, as lines 102-123 do it. *)
Definition file_over_command_line (parameters : gmap string string) (a a' : Args) : Prop :=
  (* the options read as text *)
  parallelism a' = default (parallelism a) (parameters !! "parallelism") ∧
  time_restore a' = override parameters "time_restore" (time_restore a) ∧
  control_files a' = override parameters "control_files" (control_files a) ∧
  db_file_name_convert a' =
    override parameters "db_file_name_convert" (db_file_name_convert a) ∧
  log_file_name_convert a' =
    override parameters "log_file_name_convert" (log_file_name_convert a) ∧
  audit_file_dest a' = override parameters "audit_file_dest" (audit_file_dest a) ∧
  core_dump_dest a' = override parameters "core_dump_dest" (core_dump_dest a) ∧
  log_path a' = override parameters "log_path" (log_path a) ∧
  (* the flags read from their own key *)
  match parameters !! "no_file_name_check" with
  | Some value => boolean_word value = Some (no_file_name_check a')
  | None => no_file_name_check a' = no_file_name_check a
  end ∧
  match parameters !! "refresh_db" with
  | Some value => boolean_word value = Some (refresh_db a')
  | None => refresh_db a' = refresh_db a
  end ∧
  (* the flag read from the key [spfile] *)
  no_spfile a' =
    match parameters !! "no_spfile" with
    | Some _ => (parameters !! "spfile") ≫= boolean_word
    | None => no_spfile a
    end ∧
  (* what the file cannot change *)
  source_host_db a' = source_host_db a ∧
  mount_path a' = mount_path a ∧
  new_oracle_name a' = new_oracle_name a ∧
  oracle_home a' = oracle_home a ∧
  configuration_file a' = configuration_file a ∧
  debug_level a' = debug_level a.

(** The strings of a list, one after the other. *)
Definition joined (l : list string) : string := foldr String.append "" l.

(** * Properties of the script *)

(** ** The built-ins on examples *)

Example split_host_db : Py.split ":" "jz-sourcehost-1:ora1db" = ["jz-sourcehost-1"; "ora1db"].
Proof. reflexivity. Qed.

Example split_no_colon : Py.split ":" "ora1db" = ["ora1db"].
Proof. reflexivity. Qed.

Example split_version : Py.split "." "5.2.1" = ["5"; "2"; "1"].
Proof. reflexivity. Qed.

Example int_examples :
  Py.int "4" = Some 4 ∧ Py.int " 12 " = Some 12 ∧ Py.int "-3" = Some (-3) ∧
  Py.int "1_0" = Some 10 ∧ Py.int "" = None ∧ Py.int "p2" = None ∧ Py.int "1__0" = None.
Proof. repeat split; reflexivity. Qed.

Example repr_examples :
  Py.repr "four" = "'four'" ∧
  Py.repr "fo'ur" = dquote +:+ "fo'ur" +:+ dquote ∧
  Py.repr ("a'b" +:+ dquote) = "'a\'b" +:+ dquote +:+ "'" ∧
  Py.repr (String (ascii_of_nat 9) (String (ascii_of_nat 11) "")) = "'\t\x0b'".
Proof. repeat split; reflexivity. Qed.

Example format_example :
  Py.format "aux{} of {}; " ["1"; "x"] = "aux1 of x; ".
Proof. reflexivity. Qed.

Example path_join_examples :
  Py.path_join "/u02/restore" "ORCLN_12345_files" = "/u02/restore/ORCLN_12345_files" ∧
  Py.path_join "/u02/restore/" "d" = "/u02/restore/d" ∧
  Py.path_join "/u02" "/abs" = "/abs".
Proof. repeat split; reflexivity. Qed.

Example mount_id_of_example :
  mount_id_of "ORCLN_12345_files" [] = (inr "12345", []).
Proof. reflexivity. Qed.

Example usual_run_succeeds : fst (run (cli Scenario.usual Scenario.request)) = inr ().
Proof. vm_compute. reflexivity. Qed.

(** ** Binding *)

Lemma bind_inr {A B} (m : M A) (f : A → M B) tr a tr' :
  m tr = (inr a, tr') → (m ≫= f) tr = f a tr'.
Proof. intros H. unfold mbind, M_bind. by rewrite H. Qed.

Lemma bind_inl {A B} (m : M A) (f : A → M B) tr e tr' :
  m tr = (inl e, tr') → (m ≫= f) tr = (inl e, tr').
Proof. intros H. unfold mbind, M_bind. by rewrite H. Qed.

Lemma bind_inv_inr {A B} (m : M A) (f : A → M B) tr b tr2 :
  (m ≫= f) tr = (inr b, tr2) →
  ∃ a tr1, m tr = (inr a, tr1) ∧ f a tr1 = (inr b, tr2).
Proof.
  unfold mbind, M_bind. destruct (m tr) as [[e|a] tr1]; [done|]. eauto.
Qed.

(** ** Strings *)

Lemma split_cons sep s : ∃ x xs, Py.split sep s = x :: xs.
Proof.
  induction s as [|c s [x [xs IH]]]; simpl; [eauto|].
  destruct (Ascii.eqb c sep); [eauto|]. rewrite IH. eauto.
Qed.

(** Without the separator in it, a string splits into itself alone; with
    it, into two parts at least. *)
Lemma split_without sep s :
  Py.contains (String sep "") s = false → Py.split sep s = [s].
Proof.
  induction s as [|c s IH]; simpl; [done|].
  destruct (Ascii.ascii_dec sep c) as [->|Hne].
  - by destruct s.
  - intros Hc. rewrite IH.
    + destruct (Ascii.eqb_spec c sep); congruence.
    + destruct s; simpl in *; exact Hc.
Qed.

Lemma split_with sep s :
  Py.contains (String sep "") s = true → is_Some (Py.split sep s !! 1%nat).
Proof.
  induction s as [|c s IH]; simpl; [done|].
  destruct (Ascii.ascii_dec sep c) as [->|Hne].
  - intros _. rewrite Ascii.eqb_refl. destruct (split_cons c s) as (x & xs & ->). simpl. eauto.
  - intros Hc. destruct (Ascii.eqb_spec c sep) as [->|_]; [done|].
    destruct IH as [y Hy].
    + destruct s; simpl in *; exact Hc.
    + destruct (Py.split sep s) as [|x xs]; [done|]. simpl in *. eauto.
Qed.

(** ** The steps *)

Ltac unfold_monad :=
  unfold mbind, M_bind, mret, M_ret, fmap, M_fmap, log, emit, call, raise in *.

Ltac tidy_trace :=
  repeat (rewrite <- app_assoc in *; simpl in *).

(** A mount that returns has bound its target, kept the listing taken before
    the request, asked for the mount and waited for it. *)
Lemma mount_inr w r tr m tr1 :
  mount w r tr = (inr m, tr1) →
  let mp := mount_path (args (validated r)) in
  m = {| resolved := r; live_mount_directories := os_listdir w tr mp |} ∧
  ∃ t rest, target_id r = Some t ∧
    tr1 = tr ++ Listdir mp :: rest ∧ LiveMount t (time_ms r) mp ∈ rest.
Proof.
  unfold mount. unfold_monad. simpl.
  destruct (target_id r) as [t|]; [|done].
  match goal with |- context [String.eqb ?s "SUCCEEDED"] => destruct (String.eqb s "SUCCEEDED") end;
    simpl; [|done].
  intros [= <- <-]. split; [done|]. tidy_trace.
  eexists t, _. split; [done|]. split; [reflexivity|].
  rewrite !elem_of_cons. auto.
Qed.

Lemma elem_of_new_entries new old x :
  x ∈ new_entries new old ↔ x ∈ new ∧ x ∉ old.
Proof.
  unfold new_entries. rewrite elem_of_elements, elem_of_difference.
  by rewrite !elem_of_list_to_set.
Qed.

Lemma find_backup_path_eq w m tr :
  let mp := mount_path (args (validated (resolved m))) in
  find_backup_path w m tr =
    match new_entries (os_listdir w tr mp) (live_mount_directories m) with
    | [entry] =>
        (inr ([entry], Py.path_join mp entry), tr ++ [Listdir mp])
    | _ =>
        (inl (RubrikOracleBackupMountCloneError
                (Py.format "Multiple directories were created in {} during this operation. Live mount directory cannot be determined" [mp])),
         tr ++ [Listdir mp;
                Log DEBUG (Py.format "Multiple directories were created in {} during this operation. Live mount directory cannot be determined" [mp])])
    end.
Proof.
  unfold find_backup_path. unfold_monad. simpl.
  destruct (new_entries _ _) as [|entry [|entry' l]]; simpl; tidy_trace; done.
Qed.

(** An error in the discovery of the new directory ends [cli]. *)
Lemma cli_discover_inl w a m tr e tr' :
  until_mounted w a [] = (inr m, tr) →
  discover w m tr = (inl e, tr') →
  run (cli w a) = (inl e, tr').
Proof.
  intros Hm Hd. unfold run, cli, until_restored, until_discovered.
  do 3 (erewrite bind_inl; [reflexivity|]).
  erewrite bind_inr by exact Hm. exact Hd.
Qed.

(** C6.  Mount directory discovery.  When the mount has succeeded, the
    mount root was listed once before the mount was requested and is listed
    again now; the entries considered are exactly those of the second listing
    that are not in the first.  When there is exactly one, the backup path is
    that entry under the mount path; for every other number of entries (none,
    or two or more) the run ends there with the script's own error. *)
Theorem mount_directory_discovery w a m tr :
  until_mounted w a [] = (inr m, tr) →
  let mp := mount_path (args (validated (resolved m))) in
  ∃ tr0 rest t,
    tr = tr0 ++ Listdir mp :: rest ∧
    LiveMount t (time_ms (resolved m)) mp ∈ rest ∧
    let before := os_listdir w tr0 mp in
    let after := os_listdir w tr mp in
    let live_mount_directory := new_entries after before in
    live_mount_directories m = before ∧
    (∀ x, x ∈ live_mount_directory ↔ x ∈ after ∧ x ∉ before) ∧
    match live_mount_directory with
    | [entry] =>
        find_backup_path w m tr =
          (inr ([entry], Py.path_join mp entry), tr ++ [Listdir mp])
    | _ =>
        run (cli w a) =
          (inl (RubrikOracleBackupMountCloneError
                  (Py.format "Multiple directories were created in {} during this operation. Live mount directory cannot be determined" [mp])),
           tr ++ [Listdir mp;
                  Log DEBUG (Py.format "Multiple directories were created in {} during this operation. Live mount directory cannot be determined" [mp])])
    end.
Proof.
  intros Hm mp. pose proof Hm as Hm'. unfold until_mounted in Hm'.
  apply bind_inv_inr in Hm' as (r & tr0 & _ & Hr).
  apply mount_inr in Hr as (Hmeq & t & rest & _ & Htr & Hin).
  subst m mp. cbn [resolved live_mount_directories] in *.
  set (mp := mount_path (args (validated r))) in *.
  exists tr0, rest, t. split; [exact Htr|]. split; [exact Hin|].
  cbv zeta. split; [done|]. split; [intros x; apply elem_of_new_entries|].
  pose proof (find_backup_path_eq w _ tr : find_backup_path w
                {| resolved := r; live_mount_directories := os_listdir w tr0 mp |} tr = _) as Hf.
  cbn [resolved live_mount_directories] in Hf. fold mp in Hf.
  destruct (new_entries (os_listdir w tr mp) (os_listdir w tr0 mp)) as [|entry [|entry' l]];
    [|exact Hf|];
    apply (cli_discover_inl w a _ tr _ _ Hm); unfold discover;
    by erewrite bind_inl by exact Hf.
Qed.

Lemma discover_single w m tr d :
  let mp := mount_path (args (validated (resolved m))) in
  new_entries (os_listdir w tr mp) (live_mount_directories m) = [d] →
  discover w m tr =
    match Py.split "_" d !! 1%nat with
    | Some id =>
        (inr {| mounted := m; backup_path := Py.path_join mp d; live_mount_id := id |},
         tr ++ [Listdir mp;
                Log INFO (Py.format "Using the live mount path: {}" [Py.path_join mp d]);
                Log DEBUG (Py.format "Live mount ID is {}" [id])])
    | None =>
        (inl (IndexError "list index out of range"),
         tr ++ [Listdir mp;
                Log INFO (Py.format "Using the live mount path: {}" [Py.path_join mp d])])
    end.
Proof.
  intros mp Hd. unfold discover.
  rewrite (bind_inr _ _ tr ([d], Py.path_join mp d) (tr ++ [Listdir mp])).
  2:{ rewrite find_backup_path_eq. fold mp. by rewrite Hd. }
  unfold mount_id_of, index. unfold_monad. simpl.
  destruct (Py.split "_" d !! 1%nat); simpl; tidy_trace; done.
Qed.

Lemma unmount_eq w d tr :
  let v := source d in
  let tr1 := tr ++ [RubrikRbsOracleMount (source_db v) (source_host v) (host_target v);
                    Log WARNING "Unmounting backups."] in
  let delete_request := live_mount_delete w tr1 (live_mount_id d) in
  let tr2 := tr1 ++ [LiveMountDelete (live_mount_id d)] in
  let answer := async_requests_wait w tr2 (job_id delete_request) 12 in
  unmount w d tr =
    (inr (),
     tr2 ++ [AsyncRequestsWait (job_id delete_request) 12;
             Log INFO (Py.format "Async request completed with status: {}" [job_status answer]);
             LogObject DEBUG "{}" (ObjJob answer)]
         ++ (if String.eqb (job_status answer) "SUCCEEDED"
             then [Log INFO (Py.format "Live mount of backup data files with id: {} has been unmounted." [live_mount_id d]);
                   Log WARNING "Backups unmounted"]
             else [Log WARNING (Py.format "Unmount of backup files failed with status: {}" [job_status answer])])
         ++ [Log WARNING "Database clone complete"]).
Proof.
  intros v tr1 delete_request tr2 answer.
  unfold unmount. unfold_monad. simpl. fold v.
  replace ((tr ++ [RubrikRbsOracleMount (source_db v) (source_host v) (host_target v)]) ++
           [Log WARNING "Unmounting backups."]) with tr1
    by (unfold tr1; by rewrite <- app_assoc).
  fold delete_request. fold tr2. fold answer.
  destruct (String.eqb (job_status answer) "SUCCEEDED"); simpl; tidy_trace; done.
Qed.

(** C9.  The mount identifier.  Once the mount has been made and exactly one
    new directory found, a directory name without an underscore ends the run
    with Python's own [IndexError] (not the script's error) at the access to
    the second token; the extraction succeeds, with the second token as the
    identifier, exactly when the name has an underscore in it. *)
Theorem mount_id_extraction w a m tr d :
  until_mounted w a [] = (inr m, tr) →
  let mp := mount_path (args (validated (resolved m))) in
  new_entries (os_listdir w tr mp) (live_mount_directories m) = [d] →
  (∃ t ms, LiveMount t ms mp ∈ tr) ∧
  (Py.contains "_" d = false →
   run (cli w a) =
     (inl (IndexError "list index out of range"),
      tr ++ [Listdir mp;
             Log INFO (Py.format "Using the live mount path: {}" [Py.path_join mp d])])) ∧
  (Py.contains "_" d = true →
   ∃ id, Py.split "_" d !! 1%nat = Some id ∧
     run (until_discovered w a) =
       (inr {| mounted := m; backup_path := Py.path_join mp d; live_mount_id := id |},
        tr ++ [Listdir mp;
               Log INFO (Py.format "Using the live mount path: {}" [Py.path_join mp d]);
               Log DEBUG (Py.format "Live mount ID is {}" [id])])).
Proof.
  intros Hm mp Hd. split; [|split].
  - unfold until_mounted in Hm.
    apply bind_inv_inr in Hm as (r & tr0 & _ & Hm).
    apply mount_inr in Hm as (-> & t & rest & _ & -> & Hin).
    exists t, (time_ms r). rewrite elem_of_app, elem_of_cons. auto.
  - intros Hc. apply (cli_discover_inl w a m tr _ _ Hm).
    rewrite (discover_single w m tr d Hd).
    by rewrite (split_without "_" d Hc).
  - intros Hc. destruct (split_with "_" d Hc) as [id Hid].
    exists id. split; [done|].
    unfold run, until_discovered.
    erewrite bind_inr by exact Hm.
    rewrite (discover_single w m tr d Hd). fold mp. by rewrite Hid.
Qed.

(** C7.  The unmount never aborts the run.  Once the restore script has been
    executed, the run ends normally whatever status the unmount request ends
    with; a status other than SUCCEEDED is reported by a warning, and the
    closing message of the clone follows in either case. *)
Theorem unmount_failure_is_a_warning w a d tr :
  until_restored w a [] = (inr d, tr) →
  let v := source d in
  let tr1 := tr ++ [RubrikRbsOracleMount (source_db v) (source_host v) (host_target v);
                    Log WARNING "Unmounting backups."] in
  let delete_request := live_mount_delete w tr1 (live_mount_id d) in
  let tr2 := tr1 ++ [LiveMountDelete (live_mount_id d)] in
  let answer := async_requests_wait w tr2 (job_id delete_request) 12 in
  run (cli w a) =
    (inr (),
     tr2 ++ [AsyncRequestsWait (job_id delete_request) 12;
             Log INFO (Py.format "Async request completed with status: {}" [job_status answer]);
             LogObject DEBUG "{}" (ObjJob answer)]
         ++ (if String.eqb (job_status answer) "SUCCEEDED"
             then [Log INFO (Py.format "Live mount of backup data files with id: {} has been unmounted." [live_mount_id d]);
                   Log WARNING "Backups unmounted"]
             else [Log WARNING (Py.format "Unmount of backup files failed with status: {}" [job_status answer])])
         ++ [Log WARNING "Database clone complete"]).
Proof.
  intros Hr. simpl. unfold run, cli.
  erewrite bind_inr by exact Hr. apply unmount_eq.
Qed.

Lemma getboolean_trace section key tr r tr' :
  getboolean section key tr = (r, tr') → tr' = tr.
Proof.
  unfold getboolean. destruct (section !! key); [|by intros [= _ <-]].
  destruct (find _ _); by intros [= _ <-].
Qed.

Lemma quiet_app l1 l2 : quiet l1 → quiet l2 → quiet (l1 ++ l2).
Proof.
  intros [H1 H1'] [H2 H2']. split.
  - by rewrite existsb_app, H1, H2.
  - by rewrite List.filter_app, H1', H2'.
Qed.

Lemma read_configuration_inr w a tr0 a' tr :
  read_configuration w a tr0 = (inr a', tr) →
  new_oracle_name a' = new_oracle_name a ∧
  source_host_db a' = source_host_db a ∧
  ∃ l, tr = tr0 ++ l ∧ quiet l.
Proof.
  unfold read_configuration.
  destruct (Py.truthy (configuration_file a)).
  2:{ intros [= <- <-]. repeat split. exists []. by rewrite app_nil_r. }
  unfold_monad. cbv beta iota.
  destruct (configuration w tr0 _) as [parameters|]; [|done].
  destruct (decide (is_Some (parameters !! "no_spfile"))).
  1: destruct (getboolean parameters "spfile" _) as [[e|b1] t1] eqn:H1;
       [done|apply getboolean_trace in H1; subst t1].
  all: destruct (decide (is_Some (parameters !! "no_file_name_check"))).
  1,3: destruct (getboolean parameters "no_file_name_check" _) as [[e|b2] t2] eqn:H2;
       [done|apply getboolean_trace in H2; subst t2].
  all: destruct (decide (is_Some (parameters !! "refresh_db"))).
  1,3,5,7: destruct (getboolean parameters "refresh_db" _) as [[e|b3] t3] eqn:H3;
       [done|apply getboolean_trace in H3; subst t3].
  all: intros [= <- <-]; (split; [done|]); (split; [done|]);
       rewrite <- app_assoc; eexists; (split; [reflexivity|]); by split.
Qed.

(** Up to the end of the configuration file the script only sets up the
    console handler and reads; the new name and the source are as given. *)
Lemma configured_inr w a tr0 a' tr :
  configured w a tr0 = (inr a', tr) →
  new_oracle_name a' = new_oracle_name a ∧
  source_host_db a' = source_host_db a ∧
  ∃ l, tr = tr0 ++ l ∧ quiet l.
Proof.
  unfold configured. intros H.
  apply bind_inv_inr in H as ([] & tr1 & Hl & Hr).
  apply read_configuration_inr in Hr as (Hn & Hs & l & -> & Hq).
  split; [done|]. split; [done|].
  unfold logging_setup in Hl. destruct (getattr_logging _) as [n|]; [|done].
  injection Hl as <-. rewrite <- app_assoc. eexists. split; [reflexivity|].
  by apply (quiet_app [_]).
Qed.

Lemma file_logging_eq w a tr :
  file_logging w a tr = (inr (), tr ++ log_file_events w a tr).
Proof.
  unfold file_logging, log_file_events. unfold_monad.
  destruct (Py.truthy (log_path a)); simpl; tidy_trace; [done|].
  by rewrite app_nil_r.
Qed.

Lemma validate_input_eq w a tr :
  let host := first_token "." (uname_node w) in
  let name := new_oracle_name a in
  let greeting := Log DEBUG (Py.format "The hostname used for the target host is {}" [host]) in
  validate_input w a tr =
    if (8 <? String.length name)%nat then
      (inl (RubrikOracleBackupMountCloneError
              (Py.format "The new oracle name: {} is too long. Oracle names must be 8 characters or less." [name])),
       tr ++ [greeting;
              Log DEBUG (Py.format "The new oracle name: {} is too long. Oracle names must be 8 characters or less. Aborting clone" [name])])
    else
      match Py.split ":" (source_host_db a) with
      | source_host :: source_db :: _ =>
          if String.eqb name source_db then
            (inl (RubrikOracleBackupMountCloneError
                    (Py.format "The new oracle db name {} cannot be the same as the source db name {} " [name; source_db])),
             tr ++ [greeting;
                    Log DEBUG (Py.format "The new oracle db name {} cannot be the same as the source db name {} " [name; source_db])])
          else
            (inr {| args := a; source_host := source_host; source_db := source_db;
                    host_target := host |},
             tr ++ [greeting])
      | _ => (inl (IndexError "list index out of range"), tr ++ [greeting])
      end.
Proof.
  unfold validate_input, index. unfold_monad. simpl.
  destruct (8 <? _)%nat; simpl; tidy_trace; [done|].
  destruct (Py.split ":" (source_host_db a)) as [|h [|db l]]; simpl; [done..|].
  destruct (String.eqb _ db); simpl; tidy_trace; done.
Qed.


Lemma cli_prepare_inl w a e tr :
  prepare w a [] = (inl e, tr) → run (cli w a) = (inl e, tr).
Proof.
  intros H. unfold run, cli, until_restored, until_discovered, until_mounted.
  do 5 (erewrite bind_inl; [reflexivity|]).
  by apply bind_inl.
Qed.


(** ** Validation of the input *)




(** ** The auxiliary instance *)

Lemma append_empty_r s : s +:+ "" = s.
Proof. induction s as [|c s IH]; simpl; [done|]. unfold String.app in *. simpl. by rewrite IH. Qed.

Lemma files_written_app tr1 tr2 :
  files_written (tr1 ++ tr2) = files_written tr1 ++ files_written tr2.
Proof. unfold files_written. apply omap_app. Qed.

(** C2, as the script has it.  The auxiliary instance is started with a
    plain [startup nomount], and no file written, when [no_spfile] is true;
    when it is false the script writes a parameter file holding only the line
    [db_name=<new name>] and starts the instance from that file.  So the
    minimal parameter file is made exactly when [no_spfile] is false. *)
Theorem start_auxiliary_parameter_file w a oracle_home tr :
  let name := new_oracle_name a in
  let init_file := Py.path_join (Py.path_join oracle_home "dbs") ("init" +:+ name +:+ ".ora") in
  let sql := "startup nomount pfile='" +:+ init_file +:+ "'" in
  let tr1 := tr ++ [Log WARNING "Creating minimal init file to start instance";
                    Log DEBUG ("Creating new temporary init file " +:+ init_file);
                    FileWritten init_file ("db_name=" +:+ name +:+ newline);
                    Log WARNING "Starting auxiliary instance"] in
  let tr2 := tr ++ [Log WARNING "Starting auxiliary instance"] in
  start_auxiliary w a oracle_home tr =
    (if Py.truthy_flag (no_spfile a) then
       (inr (sqlplus_sysdba w tr2 oracle_home "startup nomount"),
        tr2 ++ [SqlplusSysdba oracle_home "startup nomount";
                Log INFO (sqlplus_sysdba w tr2 oracle_home "startup nomount")])
     else
       (inr (sqlplus_sysdba w tr1 oracle_home sql),
        tr1 ++ [SqlplusSysdba oracle_home sql;
                Log INFO (sqlplus_sysdba w tr1 oracle_home sql)])) ∧
  files_written (snd (start_auxiliary w a oracle_home tr)) =
    files_written tr ++
    (if Py.truthy_flag (no_spfile a) then []
     else [(init_file, "db_name=" +:+ name +:+ newline)]).
Proof.
  intros name init_file sql tr1 tr2.
  assert (Hinit : Py.format "init{}.ora" [new_oracle_name a] = "init" +:+ name +:+ ".ora")
    by reflexivity.
  assert (Hsql : Py.format "startup nomount pfile='{}'" [init_file] = sql) by reflexivity.
  assert (Hdbg : Py.format "Creating new temporary init file {}" [init_file]
                 = "Creating new temporary init file " +:+ init_file).
  { cbn. unfold String.app. cbn. by rewrite append_empty_r. }
  assert (Hcontent : Py.format "db_name={}" [new_oracle_name a] +:+ String (ascii_of_nat 10) ""
                     = "db_name=" +:+ name +:+ newline).
  { cbn. unfold String.app. cbn. by rewrite append_empty_r. }
  assert (Heq : start_auxiliary w a oracle_home tr =
    (if Py.truthy_flag (no_spfile a) then
       (inr (sqlplus_sysdba w tr2 oracle_home "startup nomount"),
        tr2 ++ [SqlplusSysdba oracle_home "startup nomount";
                Log INFO (sqlplus_sysdba w tr2 oracle_home "startup nomount")])
     else
       (inr (sqlplus_sysdba w tr1 oracle_home sql),
        tr1 ++ [SqlplusSysdba oracle_home sql;
                Log INFO (sqlplus_sysdba w tr1 oracle_home sql)]))).
  { unfold start_auxiliary. rewrite Hinit. fold init_file. rewrite Hsql, Hdbg, Hcontent.
    unfold_monad.
    destruct (Py.truthy_flag (no_spfile a)); cbv beta iota.
    - fold tr2. by rewrite <- app_assoc.
    - replace ((((tr ++ [Log WARNING "Creating minimal init file to start instance"]) ++
                 [Log DEBUG ("Creating new temporary init file " +:+ init_file)]) ++
                [FileWritten init_file ("db_name=" +:+ name +:+ newline)]) ++
               [Log WARNING "Starting auxiliary instance"]) with tr1
        by (unfold tr1; by rewrite <- !app_assoc).
      by rewrite <- app_assoc. }
  split; [exact Heq|]. rewrite Heq.
  destruct (Py.truthy_flag (no_spfile a)); cbn [snd].
  - unfold tr2. rewrite !files_written_app. cbn. by rewrite !app_nil_r.
  - unfold tr1. rewrite !files_written_app. cbn. by rewrite !app_nil_r.
Qed.

(** C2, as the specification words it, fails: with [no_spfile] false the
    script does write the minimal parameter file. *)
Lemma minimal_file_when_no_spfile_counterexample :
  ¬ (files_written
       (snd (start_auxiliary Scenario.usual Scenario.request
               "/u01/app/oracle/product/12.2.0/dbhome_1" [])) ≠ []
     ↔ Py.truthy_flag (no_spfile Scenario.request) = true).
Proof. vm_compute. intros [H _]. by discriminate H. Qed.

(** ** The version test *)

(** On components that are numbers, the test of line 152 is this
    comparison. *)
Lemma is_pre_521_numeric a b c x y z tr :
  Py.int a = Some x → Py.int b = Some y → Py.int c = Some z →
  is_pre_521 [a; b; c] tr =
    (inr ((x <? 6) && (y <? 3) && ((y <? 2) || (z <? 1))), tr).
Proof.
  intros Ha Hb Hc. unfold is_pre_521, index, int. unfold_monad.
  cbn -[Py.int Z.ltb]. rewrite Ha.
  destruct (x <? 6); cbn -[Py.int Z.ltb]; [|done]. rewrite Hb.
  destruct (y <? 3); cbn -[Py.int Z.ltb]; [|done].
  destruct (y <? 2); cbn -[Py.int Z.ltb]; [done|]. by rewrite Hc.
Qed.

(** For a major version of 5 the test agrees with the comparison against
    5.2.1; below 5 it does not in general. *)
Lemma pre_521_test_on_major_5 y z :
  (5 <? 6) && (y <? 3) && ((y <? 2) || (z <? 1)) = spec_below_5_2_1 5 y z.
Proof.
  unfold spec_below_5_2_1.
  destruct (y <? 3) eqn:H3, (y <? 2) eqn:H2, (y =? 2) eqn:He, (z <? 1); simpl; try reflexivity; lia.
Qed.

(** ** Runs of the script on concrete requests *)

Section Runs.

Import Scenario.

(** C1.  A request to refresh without [no_file_name_check] is not
    rejected: the script connects to the backend, mounts the backup, shuts
    the existing database down and runs the duplicate, and the run ends
    normally. *)
Theorem refresh_without_file_name_check_runs :
  refresh_db refresh_request = true ∧
  no_file_name_check refresh_request = false ∧
  fst (run (cli usual refresh_request)) = inr () ∧
  RubrikConnection ∈ snd (run (cli usual refresh_request)) ∧
  LiveMount "target-id" 1604793960000 "/u02/oradata/restore"
    ∈ snd (run (cli usual refresh_request)) ∧
  SqlplusSysdba "/u01/app/oracle/product/12.2.0/dbhome_1" "shutdown immediate;"
    ∈ snd (run (cli usual refresh_request)).
Proof.
  repeat split; try reflexivity;
    apply (bool_decide_unpack _); vm_compute; exact I.
Qed.

(** C3.  Version 4.2.1 is below 5.2.1, yet the test of line 152 takes it
    for a later one: for a clustered source the script announces a cluster
    "post 5.2.1" and asks for the unified target, not for the cluster. *)
Theorem version_4_2_1_taken_for_post_5_2_1 :
  spec_below_5_2_1 4 2 1 = true ∧
  is_pre_521 ["4"; "2"; "1"] [] = (inr false, []) ∧
  resolve_target (world "4.2.1" (Some "rac-1") ["ORCLN_12345_files"] "SUCCEEDED" None)
                 validated_request [] =
    (inr ({| version := "4.2.1"; cluster_id := "cluster-1"; timezone := "America/Chicago" |},
          {| racName := Some "rac-1"; oracleHome := "/u01/app/oracle/product/12.2.0/dbhome_1";
             latestRecoveryPoint := "2020-11-08T00:06:00" |},
          Some "target-id"),
     [RubrikConnection;
      RubrikRbsOracleDatabase "ora1db" "jz-sourcehost-1";
      GetOracleDbInfo;
      Log INFO "Cluster version 4.2.1 is post 5.2.1";
      GetTargetId "cluster-1" "jz-targethost-1"]).
Proof. repeat split; vm_compute; reflexivity. Qed.

(** The until-time clause for the restore time 2019-04-30T18:23:21, as the
    script writes it. *)
Example until_time_clause_example :
  time_literal "2019-04-30T18:23:21" = "2019-04-3018:23:21" ∧
  Py.contains
    ("until time " +:+ dquote +:+
     "TO_DATE('2019-04-3018:23:21','YYYY-MM-DD HH24:MI:SS')" +:+ dquote)
    (duplicate_script 4 timed_request "ora1db") = true.
Proof. repeat split; vm_compute; reflexivity. Qed.

(** C5.  A configuration file with [no_spfile = true] and an
    [oracle_home] leaves [no_spfile] at [None] (the script reads the key
    [spfile], which the file does not have) and [oracle_home] as the
    command line gave it. *)
Theorem configuration_file_misses_no_spfile_and_oracle_home :
  read_configuration (world "5.3.1" None [] "SUCCEEDED" (Some configuration_file_1))
                     configured_request [] =
    (inr configured_request_read,
     [ConfigurationRead "/home/oracle/clone_config.txt";
      LogObject DEBUG "Parameters for duplicate loaded from file: {}." ObjConfiguration]) ∧
  configuration_file_1 !! "no_spfile" = Some "true" ∧
  no_spfile configured_request = Some true ∧
  no_spfile configured_request_read = None ∧
  configuration_file_1 !! "oracle_home" = Some "/u01/app/oracle/product/19.0.0/dbhome_1" ∧
  oracle_home configured_request_read = None.
Proof. repeat split; vm_compute; reflexivity. Qed.



End Runs.

(** ** The theorems at concrete requests *)

Section Witnesses.

Import Scenario.

Lemma mount_directory_discovery_witness :
  until_mounted usual request [] = (inr mounted_request, trace_until_mounted) ∧
  ∃ tr0 rest t,
    trace_until_mounted = tr0 ++ Listdir "/u02/oradata/restore" :: rest ∧
    LiveMount t 1604793960000 "/u02/oradata/restore" ∈ rest ∧
    ["ORCLO_11111_files"] = os_listdir usual tr0 "/u02/oradata/restore" ∧
    (∀ x, x ∈ new_entries (os_listdir usual trace_until_mounted "/u02/oradata/restore")
                          (os_listdir usual tr0 "/u02/oradata/restore")
          ↔ x ∈ os_listdir usual trace_until_mounted "/u02/oradata/restore" ∧
            x ∉ os_listdir usual tr0 "/u02/oradata/restore") ∧
    match new_entries (os_listdir usual trace_until_mounted "/u02/oradata/restore")
                      (os_listdir usual tr0 "/u02/oradata/restore") with
    | [entry] =>
        find_backup_path usual mounted_request trace_until_mounted =
          (inr ([entry], Py.path_join "/u02/oradata/restore" entry),
           trace_until_mounted ++ [Listdir "/u02/oradata/restore"])
    | _ =>
        run (cli usual request) =
          (inl (RubrikOracleBackupMountCloneError
                  (Py.format "Multiple directories were created in {} during this operation. Live mount directory cannot be determined" ["/u02/oradata/restore"])),
           trace_until_mounted ++
           [Listdir "/u02/oradata/restore";
            Log DEBUG (Py.format "Multiple directories were created in {} during this operation. Live mount directory cannot be determined" ["/u02/oradata/restore"])])
    end.
Proof.
  assert (H : until_mounted usual request [] = (inr mounted_request, trace_until_mounted))
    by (vm_compute; reflexivity).
  split; [exact H|].
  exact (mount_directory_discovery usual request _ _ H).
Defined.

Lemma unmount_failure_is_a_warning_witness :
  until_restored unmount_fails request [] = (inr discovered_request, trace_until_restored) ∧
  run (cli unmount_fails request) =
    (inr (),
     trace_until_restored ++
     [RubrikRbsOracleMount "ora1db" "jz-sourcehost-1" "jz-targethost-1";
      Log WARNING "Unmounting backups.";
      LiveMountDelete "12345";
      AsyncRequestsWait "UNMOUNT_1" 12;
      Log INFO "Async request completed with status: FAILED";
      LogObject DEBUG "{}" (ObjJob {| job_id := "UNMOUNT_1"; job_status := "FAILED" |});
      Log WARNING "Unmount of backup files failed with status: FAILED";
      Log WARNING "Database clone complete"]).
Proof.
  assert (H : until_restored unmount_fails request [] =
              (inr discovered_request, trace_until_restored))
    by (vm_compute; reflexivity).
  split; [exact H|].
  exact (unmount_failure_is_a_warning unmount_fails request _ _ H).
Defined.


Lemma mount_id_extraction_witness :
  until_mounted no_underscore request [] = (inr mounted_request, trace_until_mounted) ∧
  new_entries (os_listdir no_underscore trace_until_mounted "/u02/oradata/restore")
              ["ORCLO_11111_files"] = ["ORCLN12345files"] ∧
  run (cli no_underscore request) =
    (inl (IndexError "list index out of range"),
     trace_until_mounted ++
     [Listdir "/u02/oradata/restore";
      Log INFO "Using the live mount path: /u02/oradata/restore/ORCLN12345files"]).
Proof.
  assert (H1 : until_mounted no_underscore request [] =
               (inr mounted_request, trace_until_mounted)) by (vm_compute; reflexivity).
  assert (H2 : new_entries (os_listdir no_underscore trace_until_mounted "/u02/oradata/restore")
                 ["ORCLO_11111_files"] = ["ORCLN12345files"]) by (vm_compute; reflexivity).
  split; [exact H1|]. split; [exact H2|].
  exact (proj1 (proj2 (mount_id_extraction no_underscore request _ _ _ H1 H2)) eq_refl).
Defined.


End Witnesses.

(** * Further properties of the script *)

(** ** Footprints of the steps *)

Lemma within_ret E P {A} (a : A) : within E P (mret a).
Proof. intros tr. exists []. simpl. rewrite app_nil_r. by repeat split. Qed.

Lemma within_raise E P {A} e : E e → within E P (raise e : M A).
Proof.
  intros He tr. exists []. simpl. rewrite app_nil_r.
  repeat split; [done|]. by intros e' [= <-].
Qed.

Lemma within_emit E P e : P e → within E P (emit e).
Proof. intros He tr. exists [e]. simpl. repeat split; [by constructor|done]. Qed.

Lemma within_call E P {A} e (answer : list event → A) : P e → within E P (call e answer).
Proof. intros He tr. exists [e]. simpl. repeat split; [by constructor|done]. Qed.

Lemma within_read E P {A} (f : list event → A) :
  within E P (λ tr, (inr (f tr), tr)).
Proof. intros tr. exists []. simpl. rewrite app_nil_r. by repeat split. Qed.

Lemma within_bind E P {A B} (m : M A) (f : A → M B) :
  within E P m → (∀ a, within E P (f a)) → within E P (m ≫= f).
Proof.
  intros Hm Hf tr. unfold mbind, M_bind.
  destruct (Hm tr) as (l & Hl & HP & HE).
  destruct (m tr) as [[e|a] tr1]; simpl in *; subst tr1.
  - exists l. repeat split; [done|]. intros e' [= <-]. by apply HE.
  - destruct (Hf a (tr ++ l)) as (l' & Hl' & HP' & HE').
    exists (l ++ l'). rewrite Hl', app_assoc. repeat split; [|done].
    by apply Forall_app.
Qed.

Lemma within_fmap E P {A B} (g : A → B) (m : M A) :
  within E P m → within E P (g <$> m).
Proof.
  intros Hm tr. unfold fmap, M_fmap.
  destruct (Hm tr) as (l & Hl & HP & HE).
  destruct (m tr) as [[e|a] tr1]; simpl in *; subst tr1; exists l; repeat split; try done.
  intros e' [= <-]. by apply HE.
Qed.

Lemma within_weaken (E E' : exn → Prop) (P P' : event → Prop) {A} (m : M A) :
  (∀ e, E e → E' e) → (∀ e, P e → P' e) → within E P m → within E' P' m.
Proof.
  intros HE HP Hm tr. destruct (Hm tr) as (l & Hl & Hl' & He).
  exists l. repeat split; [done| |by eauto].
  eapply Forall_impl; [exact Hl'|exact HP].
Qed.

Lemma within_index E P {A} (l : list A) i :
  E (IndexError "list index out of range") → within E P (index l i).
Proof.
  intros He. unfold index. destruct (l !! i); [apply within_ret|by apply within_raise].
Qed.

Lemma within_int E P s :
  (∀ msg, E (ValueError msg)) → within E P (int s).
Proof.
  intros He. unfold int. destruct (Py.int s); [apply within_ret|apply within_raise, He].
Qed.

Lemma within_getboolean E P section key :
  (∀ msg, E (ValueError msg)) → within E P (getboolean section key).
Proof.
  intros He. unfold getboolean. destruct (section !! key); [|apply within_ret].
  destruct (find _ _); [apply within_ret|apply within_raise, He].
Qed.

(** One step of a footprint proof. *)
Ltac within_step :=
  lazymatch goal with
  | |- within _ _ (mbind _ _) => apply within_bind; [|intros]
  | |- within _ _ (mret _) => apply within_ret
  | |- within _ _ (raise _) => apply within_raise
  | |- within _ _ (log _ _) => apply within_emit
  | |- within _ _ (emit _) => apply within_emit
  | |- within _ _ (call _ _) => apply within_call
  | |- within _ _ (fmap _ _) => apply within_fmap
  | |- within _ _ (index _ _) => apply within_index
  | |- within _ _ (int _) => apply within_int
  | |- within _ _ (mount_id_of _) => apply within_index
  | |- within _ _ (getboolean _ _) => apply within_getboolean
  | |- within _ _ (if ?b then _ else _) => destruct b
  | |- within _ _ (match ?x with _ => _ end) => destruct x
  | |- within _ _ (λ tr, (inr _, tr)) => apply within_read
  end.

Ltac within_auto := repeat (within_step; cbv zeta; try done).

Lemma prepare_within w a :
  within prepare_errors prepare_footprint (prepare w a).
Proof.
  unfold prepare, configured, logging_setup, read_configuration, file_logging,
    validate_input.
  within_auto.
Qed.

Lemma resolve_within w v :
  within resolve_errors resolve_footprint (resolve w v).
Proof.
  unfold resolve, resolve_target, is_pre_521, resolve_time, check_oracle_home.
  within_auto.
Qed.

Lemma mount_within w r :
  within mount_errors mount_footprint (mount w r).
Proof. unfold mount. within_auto. Qed.

Lemma discover_within w m :
  within discover_errors discover_footprint (discover w m).
Proof. unfold discover, find_backup_path. within_auto. Qed.

Lemma init_file_content name :
  Py.format "db_name={}" [name] +:+ String (ascii_of_nat 10) "" =
  "db_name=" +:+ name +:+ newline.
Proof. cbn. unfold String.app. cbn. by rewrite append_empty_r. Qed.

Lemma bootstrap_within w d :
  within bootstrap_errors bootstrap_footprint (bootstrap w d).
Proof.
  unfold bootstrap, start_auxiliary. within_auto.
  all: lazymatch goal with
       | |- bootstrap_footprint (SetEnviron _ _) => simpl; auto
       | |- bootstrap_footprint (FileWritten _ _) =>
           unfold bootstrap_footprint; rewrite init_file_content; eauto
       | |- bootstrap_footprint (SqlplusSysdba _ _) =>
           unfold bootstrap_footprint, script_sql;
           first [by auto | right; right; left; eexists; reflexivity]
       end.
Qed.

Lemma duplicate_within w d :
  within duplicate_errors duplicate_footprint (duplicate w d).
Proof. unfold duplicate. within_auto. Qed.

Lemma unmount_within w d :
  within (λ _, False) unmount_footprint (unmount w d).
Proof. unfold unmount. within_auto. Qed.

(** Everything before the unmount. *)
Lemma until_restored_within w a :
  within (λ _, True) restore_footprint (until_restored w a).
Proof.
  unfold until_restored, until_discovered, until_mounted.
  apply within_bind; [apply within_bind; [apply within_bind;
    [apply within_bind; [apply within_bind|]|]|]|]; intros.
  - eapply within_weaken; [| |apply prepare_within]; unfold restore_footprint; auto.
  - eapply within_weaken; [| |apply resolve_within]; unfold restore_footprint; auto.
  - eapply within_weaken; [| |apply mount_within]; unfold restore_footprint; auto.
  - eapply within_weaken; [| |apply discover_within]; unfold restore_footprint; auto.
  - eapply within_weaken; [| |apply bootstrap_within]; unfold restore_footprint; auto 10.
  - eapply within_weaken; [| |apply duplicate_within]; unfold restore_footprint; auto 10.
Qed.

Lemma within_run E P {A} (m : M A) :
  within E P m → Forall P (snd (run m)) ∧ ∀ e, fst (run m) = inl e → E e.
Proof.
  intros Hm. destruct (Hm []) as (l & Hl & HP & HE). unfold run.
  rewrite Hl. simpl. by split.
Qed.

Lemma within_at E P {A} (m : M A) tr :
  within E P m →
  (∃ l, snd (m tr) = tr ++ l ∧ Forall P l) ∧ ∀ e, fst (m tr) = inl e → E e.
Proof. intros Hm. destruct (Hm tr) as (l & Hl & HP & HE). eauto. Qed.

Lemma existsb_Forall_false (P : event → Prop) (f : event → bool) l :
  (∀ e, P e → f e = false) → Forall P l → existsb f l = false.
Proof.
  intros Hf. induction 1 as [|e l He _ IH]; simpl; [done|].
  by rewrite (Hf e He), IH.
Qed.

Lemma cli_within w a : Forall cli_footprint (snd (run (cli w a))).
Proof.
  assert (H : within (λ _, True) cli_footprint (cli w a)).
  { unfold cli. apply within_bind; [|intros d].
    - eapply within_weaken; [| |apply until_restored_within]; unfold cli_footprint; auto.
    - eapply within_weaken; [| |apply unmount_within]; unfold cli_footprint; auto. }
  by apply within_run in H as [H _].
Qed.

(** ** What a run does not do *)

(** X1.  A run that ends in lines 87-145 (a log level that does not exist, a
    configuration file that cannot be used, a rejected name, a source without
    a colon) has made no call to the backend or the database engine, whatever
    the reason. *)
Theorem preparation_makes_no_backend_call w a e tr :
  prepare w a [] = (inl e, tr) →
  run (cli w a) = (inl e, tr) ∧ existsb backend_call tr = false.
Proof.
  intros Hp. split; [by apply cli_prepare_inl|].
  destruct (within_at _ _ _ [] (prepare_within w a)) as [(l & Hl & HP) _].
  rewrite Hp in Hl. simpl in Hl. subst tr.
  apply (existsb_Forall_false prepare_footprint); [|done].
  by intros [].
Qed.

Lemma preparation_makes_no_backend_call_witness :
  prepare Scenario.usual Scenario.short_name_no_colon [] =
    (inl (IndexError "list index out of range"),
     [StreamHandlerAdded 30;
      Log DEBUG "The hostname used for the target host is jz-targethost-1"]) ∧
  run (cli Scenario.usual Scenario.short_name_no_colon) =
    (inl (IndexError "list index out of range"),
     [StreamHandlerAdded 30;
      Log DEBUG "The hostname used for the target host is jz-targethost-1"]) ∧
  existsb backend_call
    [StreamHandlerAdded 30;
     Log DEBUG "The hostname used for the target host is jz-targethost-1"] = false.
Proof.
  assert (H : prepare Scenario.usual Scenario.short_name_no_colon [] =
    (inl (IndexError "list index out of range"),
     [StreamHandlerAdded 30;
      Log DEBUG "The hostname used for the target host is jz-targethost-1"]))
    by reflexivity.
  split; [exact H|].
  exact (preparation_makes_no_backend_call _ _ _ _ H).
Defined.

(** X2.  The unmount is requested exactly on the runs that end normally: a
    run that ends with an exception, at whatever step, has not asked the
    backend to delete the live mount. *)
Theorem unmount_requested_only_on_success w a :
  existsb is_live_mount_delete (snd (run (cli w a))) =
  match fst (run (cli w a)) with
  | inr _ => true
  | inl _ => false
  end.
Proof.
  unfold run, cli.
  destruct (within_at _ _ _ [] (until_restored_within w a)) as [(l & Hl & HP) _].
  unfold mbind, M_bind.
  destruct (until_restored w a []) as [[e|d] tr]; simpl in Hl; subst tr.
  - simpl. apply (existsb_Forall_false restore_footprint); [|done].
    intros [] H; try done; unfold restore_footprint in H; simpl in H; tauto.
  - rewrite unmount_eq. cbn [fst snd].
    rewrite !existsb_app. simpl. by rewrite !orb_true_r.
Qed.

(** X3.  The statements a run sends to the database engine through
    [sqlplus_sysdba] are these and no other: the shutdown of a refresh, the
    start of the instance (plain, or from a parameter file) and the query of
    the instance name. *)
Theorem statements_sent_to_the_database w a oracle_home sql :
  SqlplusSysdba oracle_home sql ∈ snd (run (cli w a)) → script_sql sql.
Proof.
  intros Hin. pose proof (cli_within w a) as HF.
  rewrite Forall_forall in HF. specialize (HF _ Hin).
  unfold cli_footprint, restore_footprint in HF. simpl in HF. tauto.
Qed.

Lemma statements_sent_to_the_database_witness :
  SqlplusSysdba "/u01/app/oracle/product/12.2.0/dbhome_1" "shutdown immediate;"
    ∈ snd (run (cli Scenario.usual Scenario.refresh_request)) ∧
  script_sql "shutdown immediate;".
Proof.
  assert (H : SqlplusSysdba "/u01/app/oracle/product/12.2.0/dbhome_1" "shutdown immediate;"
                ∈ snd (run (cli Scenario.usual Scenario.refresh_request))).
  { apply (bool_decide_unpack _). vm_compute. exact I. }
  split; [exact H|].
  exact (statements_sent_to_the_database _ _ _ _ H).
Defined.



(** ** The log level and the configuration file *)

Lemma find_key_none {B} (name : string) (l : list (string * B)) :
  name ∉ (l.*1) → find (λ p, String.eqb (fst p) name) l = None.
Proof.
  induction l as [|[k v] l IH]; simpl; [done|].
  rewrite not_elem_of_cons. intros [Hne Hl].
  destruct (String.eqb_spec k name) as [->|_]; [done|]. by apply IH.
Qed.

(** X5.  A log level whose upper-case form is not one of the eight level
    names of [logging] ends the run with [ValueError] before anything else
    is done: no handler is added, the configuration file is not read. *)
Theorem invalid_log_level w a :
  Py.upper (debug_level a) ∉ (logging_levels.*1) →
  run (cli w a) =
    (inl (ValueError (Py.format "Invalid log level: {}" [debug_level a])), []).
Proof.
  intros Hl. apply cli_prepare_inl.
  unfold prepare, configured, logging_setup, getattr_logging.
  by rewrite (find_key_none _ _ Hl).
Qed.

Lemma invalid_log_level_witness :
  (Py.upper "Verbose" ∉ logging_levels.*1) ∧
  run (cli Scenario.usual (Scenario.with_debug_level Scenario.request "Verbose")) =
    (inl (ValueError "Invalid log level: Verbose"), []).
Proof.
  assert (H : Py.upper (debug_level (Scenario.with_debug_level Scenario.request "Verbose"))
                ∉ (logging_levels.*1)).
  { apply (bool_decide_unpack _). vm_compute. exact I. }
  split; [exact H|].
  exact (invalid_log_level Scenario.usual _ H).
Defined.

(** X6.  When [configparser] has read the configuration file and found no
    [parameters] section in it (a file that does not exist, which [read]
    skips, an empty file, a file with other sections only), the run ends with
    [KeyError] right after the file is read. *)
Theorem missing_parameters_section w a numeric_level :
  getattr_logging (Py.upper (debug_level a)) = Some numeric_level →
  Py.truthy (configuration_file a) = true →
  configuration w [StreamHandlerAdded numeric_level] (Py.str (configuration_file a)) = None →
  run (cli w a) =
    (inl (KeyError "parameters"),
     [StreamHandlerAdded numeric_level;
      ConfigurationRead (Py.str (configuration_file a))]).
Proof.
  intros Hl Hf Hc. apply cli_prepare_inl.
  unfold prepare, configured, logging_setup, read_configuration.
  rewrite Hl, Hf. unfold_monad. simpl. by rewrite Hc.
Qed.

Lemma missing_parameters_section_witness :
  getattr_logging (Py.upper (debug_level Scenario.configured_request)) = Some 30 ∧
  Py.truthy (configuration_file Scenario.configured_request) = true ∧
  configuration Scenario.usual [StreamHandlerAdded 30]
    (Py.str (configuration_file Scenario.configured_request)) = None ∧
  run (cli Scenario.usual Scenario.configured_request) =
    (inl (KeyError "parameters"),
     [StreamHandlerAdded 30; ConfigurationRead "/home/oracle/clone_config.txt"]).
Proof.
  split; [reflexivity|]. split; [reflexivity|]. split; [reflexivity|].
  exact (missing_parameters_section Scenario.usual Scenario.configured_request 30
           eq_refl eq_refl eq_refl).
Defined.

Lemma getboolean_inr section key tr r tr' :
  getboolean section key tr = (inr r, tr') →
  tr' = tr ∧ r = (section !! key) ≫= boolean_word ∧
  ∀ value, section !! key = Some value → ∃ b, boolean_word value = Some b.
Proof.
  unfold getboolean, boolean_word.
  destruct (section !! key) as [value|]; cbn [mbind option_bind]; [|by intros [= <- <-]].
  destruct (find _ BOOLEAN_STATES) as [p|] eqn:Hfind;
    cbn [fmap option_fmap option_map]; [|done].
  intros [= <- <-]. split; [done|]. split; [done|].
  intros ? [= <-]. rewrite Hfind. by eexists.
Qed.

(** X7.  What a configuration file that loads does to the arguments.  Each
    of parallelism, time_restore, control_files, db_file_name_convert,
    log_file_name_convert, audit_file_dest, core_dump_dest and log_path is
    taken from the file when the file has it and kept otherwise;
    no_file_name_check and refresh_db are the boolean word of their own key;
    no_spfile, when the file has that key, is the boolean word of the key
    [spfile] (or [None]); and the source, the mount path, the new name,
    ORACLE_HOME and the log level stay as the command line gave them. *)
Theorem configuration_file_overrides w a tr parameters a' tr' :
  Py.truthy (configuration_file a) = true →
  configuration w tr (Py.str (configuration_file a)) = Some parameters →
  read_configuration w a tr = (inr a', tr') →
  file_over_command_line parameters a a' ∧
  tr' = tr ++ [ConfigurationRead (Py.str (configuration_file a));
               LogObject DEBUG "Parameters for duplicate loaded from file: {}." ObjConfiguration].
Proof.
  intros Hf Hc. unfold read_configuration. rewrite Hf.
  unfold_monad. cbv beta iota. rewrite Hc.
  destruct (parameters !! "no_spfile") as [v1|] eqn:E1;
    (destruct (decide _) as [H1|H1];
     [try (by destruct H1 as [? [=]])|try (by exfalso; eauto)]).
  1: destruct (getboolean parameters "spfile" _) as [[e|b1] t1] eqn:G1;
       [done|apply getboolean_inr in G1 as (-> & -> & _)].
  all: destruct (parameters !! "no_file_name_check") as [v2|] eqn:E2;
    (destruct (decide _) as [H2|H2];
     [try (by destruct H2 as [? [=]])|try (by exfalso; eauto)]).
  1,3: destruct (getboolean parameters "no_file_name_check" _) as [[e|b2] t2] eqn:G2;
       [done|apply getboolean_inr in G2 as (-> & -> & Hb2); rewrite E2;
             destruct (Hb2 _ E2) as [b2' Hb2']; cbn [mbind option_bind]; rewrite Hb2'].
  all: destruct (parameters !! "refresh_db") as [v3|] eqn:E3;
    (destruct (decide _) as [H3|H3];
     [try (by destruct H3 as [? [=]])|try (by exfalso; eauto)]).
  1,3,5,7: destruct (getboolean parameters "refresh_db" _) as [[e|b3] t3] eqn:G3;
       [done|apply getboolean_inr in G3 as (-> & -> & Hb3); rewrite E3;
             destruct (Hb3 _ E3) as [b3' Hb3']; cbn [mbind option_bind]; rewrite Hb3'].
  all: intros [= <- <-]; (split; [|by rewrite <- app_assoc]);
       unfold file_over_command_line; cbn [parallelism time_restore control_files
         db_file_name_convert log_file_name_convert audit_file_dest core_dump_dest
         log_path no_file_name_check refresh_db no_spfile source_host_db mount_path
         new_oracle_name oracle_home configuration_file debug_level];
       rewrite ?E1, ?E2, ?E3; repeat split; try done.

Qed.

Lemma configuration_file_overrides_witness :
  Py.truthy (configuration_file Scenario.configured_request_2) = true ∧
  configuration Scenario.configured_world_2 []
    (Py.str (configuration_file Scenario.configured_request_2)) =
    Some Scenario.configuration_file_2 ∧
  read_configuration Scenario.configured_world_2 Scenario.configured_request_2 [] =
    (inr Scenario.configured_request_2_read,
     [ConfigurationRead "/home/oracle/clone_config.txt";
      LogObject DEBUG "Parameters for duplicate loaded from file: {}." ObjConfiguration]) ∧
  file_over_command_line Scenario.configuration_file_2 Scenario.configured_request_2
    Scenario.configured_request_2_read ∧
  parallelism Scenario.configured_request_2_read = "8" ∧
  refresh_db Scenario.configured_request_2_read = true ∧
  no_file_name_check Scenario.configured_request_2_read = true.
Proof.
  assert (H : read_configuration Scenario.configured_world_2 Scenario.configured_request_2 [] =
    (inr Scenario.configured_request_2_read,
     [ConfigurationRead "/home/oracle/clone_config.txt";
      LogObject DEBUG "Parameters for duplicate loaded from file: {}." ObjConfiguration]))
    by (vm_compute; reflexivity).
  split; [reflexivity|]. split; [reflexivity|]. split; [exact H|].
  split; [|repeat split; reflexivity].
  exact (proj1 (configuration_file_overrides Scenario.configured_world_2
                  Scenario.configured_request_2 [] Scenario.configuration_file_2 _ _
                  eq_refl eq_refl H)).
Defined.

(** ** The target, the ORACLE_HOME and the mount *)

(** X8.  Target resolution on a version of three numeric parts.  The test
    made is major < 6 and minor < 3 and (minor < 2 or patch < 1).  When it
    holds, a source with a non-empty [racName] is resolved by [get_rac_id], a
    source with an empty one by [get_host_id], and for a source without the
    key no lookup is made and [target_id] stays unbound; when it does not
    hold the target is resolved by [get_target_id]. *)
Theorem target_resolution w v tr a b c x y z :
  let rubrik := rubrik_connection w tr in
  let tr1 := tr ++ [RubrikConnection; RubrikRbsOracleDatabase (source_db v) (source_host v)] in
  let info := get_oracle_db_info w tr1 in
  let tr2 := tr1 ++ [GetOracleDbInfo] in
  let pre := tr2 ++ [LogObject INFO "Cluster version {} is pre 5.2.1" (ObjList [a; b; c])] in
  let post := tr2 ++ [Log INFO (Py.format "Cluster version {}.{}.{} is post 5.2.1" [a; b; c])] in
  Py.split "." (first_token "-" (version rubrik)) = [a; b; c] →
  Py.int a = Some x → Py.int b = Some y → Py.int c = Some z →
  resolve_target w v tr =
    if (x <? 6) && (y <? 3) && ((y <? 2) || (z <? 1)) then
      match racName info with
      | Some rac =>
          if negb (String.eqb rac "") then
            (inr (rubrik, info, Some (get_rac_id w pre (cluster_id rubrik) (host_target v))),
             pre ++ [GetRacId (cluster_id rubrik) (host_target v)])
          else
            (inr (rubrik, info, Some (get_host_id w pre (cluster_id rubrik) (host_target v))),
             pre ++ [GetHostId (cluster_id rubrik) (host_target v)])
      | None => (inr (rubrik, info, None), pre)
      end
    else
      (inr (rubrik, info, Some (get_target_id w post (cluster_id rubrik) (host_target v))),
       post ++ [GetTargetId (cluster_id rubrik) (host_target v)]).
Proof.
  intros rubrik tr1 info tr2 pre post Hv Ha Hb Hc.
  unfold resolve_target.
  rewrite (bind_inr _ _ tr rubrik (tr ++ [RubrikConnection])) by reflexivity.
  rewrite (bind_inr _ _ _ () tr1)
    by (unfold emit, tr1; by rewrite <- app_assoc).
  rewrite (bind_inr _ _ tr1 info tr2) by reflexivity.
  cbv zeta. fold rubrik. rewrite Hv.
  rewrite (bind_inr _ _ tr2 _ tr2 (is_pre_521_numeric a b c x y z tr2 Ha Hb Hc)).
  destruct ((x <? 6) && (y <? 3) && ((y <? 2) || (z <? 1))).
  - rewrite (bind_inr _ _ tr2 () pre) by reflexivity.
    destruct (racName info) as [rac|]; [|reflexivity].
    destruct (negb (String.eqb rac "")); reflexivity.
  - unfold index. cbn [lookup list_lookup].
    unfold_monad. cbv beta iota. fold post. reflexivity.
Qed.

Lemma target_resolution_witness :
  Py.split "." (first_token "-"
     (version (rubrik_connection (Scenario.cluster_5_2_0 (Some "rac-1")) []))) = ["5"; "2"; "0"] ∧
  Py.int "5" = Some 5 ∧ Py.int "2" = Some 2 ∧ Py.int "0" = Some 0 ∧
  resolve_target (Scenario.cluster_5_2_0 (Some "rac-1")) Scenario.validated_request [] =
    (inr ({| version := "5.2.0-p1-1234"; cluster_id := "cluster-1";
             timezone := "America/Chicago" |},
          {| racName := Some "rac-1";
             oracleHome := "/u01/app/oracle/product/12.2.0/dbhome_1";
             latestRecoveryPoint := "2020-11-08T00:06:00" |},
          Some "rac-id"),
     [RubrikConnection;
      RubrikRbsOracleDatabase "ora1db" "jz-sourcehost-1";
      GetOracleDbInfo;
      LogObject INFO "Cluster version {} is pre 5.2.1" (ObjList ["5"; "2"; "0"]);
      GetRacId "cluster-1" "jz-targethost-1"]).
Proof.
  split; [reflexivity|]. split; [reflexivity|]. split; [reflexivity|].
  split; [reflexivity|].
  exact (target_resolution (Scenario.cluster_5_2_0 (Some "rac-1"))
           Scenario.validated_request [] "5" "2" "0" 5 2 0
           eq_refl eq_refl eq_refl eq_refl).
Defined.

Lemma cli_mount_inl w a r tr e tr' :
  (prepare w a ≫= resolve w) [] = (inr r, tr) →
  mount w r tr = (inl e, tr') →
  run (cli w a) = (inl e, tr').
Proof.
  intros Hr Hm. unfold run, cli, until_restored, until_discovered, until_mounted.
  do 4 (erewrite bind_inl; [reflexivity|]).
  erewrite bind_inr by exact Hr. exact Hm.
Qed.

Lemma cli_resolve_inl w a v tr e tr' :
  prepare w a [] = (inr v, tr) →
  resolve w v tr = (inl e, tr') →
  run (cli w a) = (inl e, tr').
Proof.
  intros Hp Hr. unfold run, cli, until_restored, until_discovered, until_mounted.
  do 5 (erewrite bind_inl; [reflexivity|]).
  erewrite bind_inr by exact Hp. exact Hr.
Qed.

(** X9.  A run that reaches the mount with [target_id] never bound (an
    older cluster and a source without the key [racName]) ends with Python's
    [UnboundLocalError] when the mount is about to be requested: the mount
    root has been listed, no mount has been asked for. *)
Theorem target_never_bound w a r tr :
  (prepare w a ≫= resolve w) [] = (inr r, tr) →
  target_id r = None →
  let mp := mount_path (args (validated r)) in
  run (cli w a) =
    (inl (UnboundLocalError "target_id"),
     tr ++ [Listdir mp;
            Log WARNING (Py.format "Starting the mount of the requested {} backup pieces on {}."
                           [source_db (validated r); host_target (validated r)])]).
Proof.
  intros Hr Ht mp. apply (cli_mount_inl w a r tr _ _ Hr).
  unfold mount. rewrite Ht. unfold_monad. cbv beta iota zeta.
  by rewrite <- app_assoc.
Qed.

Lemma target_never_bound_witness :
  (prepare (Scenario.cluster_5_2_0 None) Scenario.request ≫=
   resolve (Scenario.cluster_5_2_0 None)) [] =
    (inr Scenario.resolved_world_5_2_0, Scenario.trace_resolved_5_2_0) ∧
  target_id Scenario.resolved_world_5_2_0 = None ∧
  run (cli (Scenario.cluster_5_2_0 None) Scenario.request) =
    (inl (UnboundLocalError "target_id"),
     Scenario.trace_resolved_5_2_0 ++
     [Listdir "/u02/oradata/restore";
      Log WARNING "Starting the mount of the requested ora1db backup pieces on jz-targethost-1."]).
Proof.
  assert (H : (prepare (Scenario.cluster_5_2_0 None) Scenario.request ≫=
               resolve (Scenario.cluster_5_2_0 None)) [] =
              (inr Scenario.resolved_world_5_2_0, Scenario.trace_resolved_5_2_0))
    by (vm_compute; reflexivity).
  split; [exact H|]. split; [reflexivity|].
  exact (target_never_bound _ _ _ _ H eq_refl).
Defined.

(** X10.  A version of two parts only, such as 6.0, ends the run with
    Python's [IndexError] before any target is looked up, unless its major
    part is below 6 and its minor part below 2 (in which case the third part
    is never read). *)
Theorem version_of_two_parts w v tr a b x y :
  Py.split "." (first_token "-" (version (rubrik_connection w tr))) = [a; b] →
  Py.int a = Some x → Py.int b = Some y →
  (x <? 6) && (y <? 2) = false →
  resolve_target w v tr =
    (inl (IndexError "list index out of range"),
     tr ++ [RubrikConnection;
            RubrikRbsOracleDatabase (source_db v) (source_host v);
            GetOracleDbInfo]).
Proof.
  intros Hv Ha Hb Hxy. unfold resolve_target.
  rewrite (bind_inr _ _ tr (rubrik_connection w tr) (tr ++ [RubrikConnection]))
    by reflexivity.
  set (tr1 := tr ++ [RubrikConnection; RubrikRbsOracleDatabase (source_db v) (source_host v)]).
  rewrite (bind_inr _ _ _ () tr1)
    by (unfold emit, tr1; by rewrite <- app_assoc).
  rewrite (bind_inr _ _ tr1 (get_oracle_db_info w tr1) (tr1 ++ [GetOracleDbInfo]))
    by reflexivity.
  cbv zeta. rewrite Hv.
  replace (tr ++ [RubrikConnection;
                  RubrikRbsOracleDatabase (source_db v) (source_host v); GetOracleDbInfo])
    with (tr1 ++ [GetOracleDbInfo]) by (unfold tr1; by rewrite <- app_assoc).
  generalize (tr1 ++ [GetOracleDbInfo]). intros tr2.
  unfold is_pre_521, index, int. unfold_monad. cbn -[Py.int Z.ltb].
  rewrite Ha. destruct (x <? 6); cbn -[Py.int Z.ltb]; [|done].
  rewrite Hb. destruct (y <? 3); cbn -[Py.int Z.ltb]; [|done].
  simpl in Hxy. by rewrite Hxy.
Qed.

Lemma version_of_two_parts_witness :
  Py.split "." (first_token "-" (version (rubrik_connection Scenario.cluster_6_0 []))) =
    ["6"; "0"] ∧
  Py.int "6" = Some 6 ∧ Py.int "0" = Some 0 ∧ (6 <? 6) && (0 <? 2) = false ∧
  resolve_target Scenario.cluster_6_0 Scenario.validated_request [] =
    (inl (IndexError "list index out of range"),
     [RubrikConnection; RubrikRbsOracleDatabase "ora1db" "jz-sourcehost-1"; GetOracleDbInfo]).
Proof.
  split; [reflexivity|]. split; [reflexivity|]. split; [reflexivity|].
  split; [reflexivity|].
  exact (version_of_two_parts Scenario.cluster_6_0 Scenario.validated_request []
           "6" "0" 6 0 eq_refl eq_refl eq_refl eq_refl).
Defined.

(** X11.  A mount whose request ends with any status other than SUCCEEDED
    ends the run with the script's error: the mount root is not listed again,
    no instance is started and nothing is unmounted. *)
Theorem mount_not_succeeded w a r tr t :
  (prepare w a ≫= resolve w) [] = (inr r, tr) →
  target_id r = Some t →
  let mp := mount_path (args (validated r)) in
  let tr1 := tr ++ [Listdir mp;
                    Log WARNING (Py.format "Starting the mount of the requested {} backup pieces on {}."
                                   [source_db (validated r); host_target (validated r)])] in
  let request := live_mount w tr1 t (time_ms r) mp in
  let tr2 := tr1 ++ [LiveMount t (time_ms r) mp] in
  let answer := async_requests_wait w tr2 (job_id request) 20 in
  job_status answer ≠ "SUCCEEDED" →
  run (cli w a) =
    (inl (RubrikOracleBackupMountCloneError
            (Py.format "Mount of backup files did not complete successfully. Mount ended with status {}" [job_status answer])),
     tr2 ++ [AsyncRequestsWait (job_id request) 20;
             LogObject DEBUG "Backup Live Mount Asyc Request: {}" (ObjJob answer);
             Log INFO (Py.format "Async request completed with status: {}" [job_status answer]);
             Log DEBUG (Py.format "Mount of backup files did not complete successfully. Mount ended with status {}" [job_status answer])]).
Proof.
  intros Hr Ht mp tr1 request tr2 answer Hs.
  apply (cli_mount_inl w a r tr _ _ Hr).
  unfold mount. rewrite Ht. unfold_monad. cbv beta iota zeta. fold mp.
  replace ((tr ++ [Listdir mp]) ++ _) with tr1
    by (unfold tr1; by rewrite <- app_assoc).
  fold request. fold tr2. fold answer.
  destruct (String.eqb_spec (job_status answer) "SUCCEEDED") as [|_]; [done|].
  cbn [negb]. by rewrite <- !app_assoc.
Qed.

Lemma mount_not_succeeded_witness :
  (prepare Scenario.mount_fails Scenario.request ≫= resolve Scenario.mount_fails) [] =
    (inr Scenario.resolved_request, Scenario.trace_resolved) ∧
  target_id Scenario.resolved_request = Some "target-id" ∧
  "FAILED" ≠ "SUCCEEDED" ∧
  run (cli Scenario.mount_fails Scenario.request) =
    (inl (RubrikOracleBackupMountCloneError
            "Mount of backup files did not complete successfully. Mount ended with status FAILED"),
     Scenario.trace_resolved ++
     [Listdir "/u02/oradata/restore";
      Log WARNING "Starting the mount of the requested ora1db backup pieces on jz-targethost-1.";
      LiveMount "target-id" 1604793960000 "/u02/oradata/restore";
      AsyncRequestsWait "MOUNT_1" 20;
      LogObject DEBUG "Backup Live Mount Asyc Request: {}"
        (ObjJob {| job_id := "MOUNT_1"; job_status := "FAILED" |});
      Log INFO "Async request completed with status: FAILED";
      Log DEBUG "Mount of backup files did not complete successfully. Mount ended with status FAILED"]).
Proof.
  assert (H : (prepare Scenario.mount_fails Scenario.request ≫=
               resolve Scenario.mount_fails) [] =
              (inr Scenario.resolved_request, Scenario.trace_resolved))
    by (vm_compute; reflexivity).
  assert (Hs : "FAILED" ≠ "SUCCEEDED") by discriminate.
  split; [exact H|]. split; [reflexivity|]. split; [exact Hs|].
  exact (mount_not_succeeded Scenario.mount_fails Scenario.request _ _ "target-id"
           H eq_refl Hs).
Defined.

Lemma resolve_time_inr w a rubrik info tr :
  ∃ ms, resolve_time w a rubrik info tr =
          (inr ms, snd (resolve_time w a rubrik info tr)).
Proof.
  unfold resolve_time. unfold_monad.
  destruct (Py.truthy (time_restore a)); eexists; reflexivity.
Qed.

(** X12.  The ORACLE_HOME used is the one given, or the one of the source
    database when none (or an empty one) is given; when that path does not
    exist on the target host the run ends with the script's error before the
    mount root is listed and before any mount is requested. *)
Theorem oracle_home_must_exist w a v tr0 rubrik info target tr1 :
  prepare w a [] = (inr v, tr0) →
  resolve_target w v tr0 = (inr (rubrik, info, target), tr1) →
  let tr2 := snd (resolve_time w (args v) rubrik info tr1) in
  let home := if Py.truthy (oracle_home (args v)) then Py.str (oracle_home (args v))
              else oracleHome info in
  os_path_exists w tr2 home = false →
  run (cli w a) =
    (inl (RubrikOracleBackupMountCloneError
            (Py.format "The ORACLE_HOME: {} does not exist on the target host: {}"
                       [home; host_target v])),
     tr2 ++ [PathExists home;
             Log DEBUG (Py.format "The ORACLE_HOME: {} does not exist on the target host: {}"
                                  [home; host_target v])]).
Proof.
  intros Hp Ht tr2 home He.
  apply (cli_resolve_inl w a v tr0 _ _ Hp).
  unfold resolve. erewrite bind_inr by exact Ht. cbv beta iota.
  destruct (resolve_time_inr w (args v) rubrik info tr1) as [ms Hms].
  erewrite bind_inr by exact Hms. fold tr2.
  unfold check_oracle_home. cbv zeta. fold home.
  unfold_monad. cbv beta iota. rewrite He. cbn [negb].
  by rewrite <- app_assoc.
Qed.

Lemma oracle_home_must_exist_witness :
  ∃ tr1,
    prepare Scenario.home_missing Scenario.request [] =
      (inr Scenario.validated_request, Scenario.trace_prepared) ∧
    resolve_target Scenario.home_missing Scenario.validated_request Scenario.trace_prepared =
      (inr (rubrik_connection Scenario.usual [], get_oracle_db_info Scenario.usual [],
            Some "target-id"), tr1) ∧
    run (cli Scenario.home_missing Scenario.request) =
      (inl (RubrikOracleBackupMountCloneError
              "The ORACLE_HOME: /u01/app/oracle/product/12.2.0/dbhome_1 does not exist on the target host: jz-targethost-1"),
       tr1 ++
       [Log WARNING "Using most recent recovery point for mount.";
        EpochTime "2020-11-08T00:06:00" "America/Chicago";
        PathExists "/u01/app/oracle/product/12.2.0/dbhome_1";
        Log DEBUG "The ORACLE_HOME: /u01/app/oracle/product/12.2.0/dbhome_1 does not exist on the target host: jz-targethost-1"]).
Proof.
  eexists.
  assert (H1 : prepare Scenario.home_missing Scenario.request [] =
               (inr Scenario.validated_request, Scenario.trace_prepared))
    by (vm_compute; reflexivity).
  assert (H2 : resolve_target Scenario.home_missing Scenario.validated_request
                 Scenario.trace_prepared =
               (inr (rubrik_connection Scenario.usual [], get_oracle_db_info Scenario.usual [],
                     Some "target-id"),
                Scenario.trace_prepared ++
                [RubrikConnection; RubrikRbsOracleDatabase "ora1db" "jz-sourcehost-1";
                 GetOracleDbInfo; Log INFO "Cluster version 5.3.1 is post 5.2.1";
                 GetTargetId "cluster-1" "jz-targethost-1"]))
    by (vm_compute; reflexivity).
  split; [exact H1|]. split; [exact H2|].
  exact (oracle_home_must_exist Scenario.home_missing Scenario.request _ _ _ _ _ _
           H1 H2 eq_refl).
Defined.

(** ** The texts the script builds *)

Lemma first_token_has_no_separator sep s :
  Py.contains (String sep "") (first_token sep s) = false.
Proof.
  unfold first_token. induction s as [|c s IH]; simpl; [done|].
  destruct (Ascii.eqb_spec c sep) as [->|Hne]; [done|].
  destruct (Py.split sep s) as [|x xs]; simpl in *.
  - destruct (Ascii.ascii_dec sep c); [congruence|done].
  - destruct (Ascii.ascii_dec sep c); [congruence|].
    destruct x; simpl in *; exact IH.
Qed.

Lemma first_token_is_prefix sep s :
  String.prefix (first_token sep s) s = true.
Proof.
  unfold first_token. induction s as [|c s IH]; simpl; [done|].
  destruct (Ascii.eqb c sep); [done|].
  destruct (Py.split sep s) as [|x xs]; simpl in *.
  - destruct (Ascii.ascii_dec c c); [|done]. by destruct s.
  - by destruct (Ascii.ascii_dec c c).
Qed.

(** X13.  What a request that passes lines 87-145 satisfies: the new name
    has at most eight characters and differs from the database name of the
    source; the source splits at its colons into a host, a database name and
    possibly more; and the target host is the node name of the machine up to
    its first dot. *)
Theorem validated_request_invariant w a v tr :
  prepare w a [] = (inr v, tr) →
  (String.length (new_oracle_name (args v)) ≤ 8)%nat ∧
  new_oracle_name (args v) ≠ source_db v ∧
  new_oracle_name (args v) = new_oracle_name a ∧
  (∃ more, Py.split ":" (source_host_db a) = source_host v :: source_db v :: more) ∧
  host_target v = first_token "." (uname_node w) ∧
  Py.contains "." (host_target v) = false ∧
  String.prefix (host_target v) (uname_node w) = true.
Proof.
  intros Hp. unfold prepare in Hp.
  apply bind_inv_inr in Hp as (a' & tr1 & Hc & Hp).
  apply configured_inr in Hc as (Hn & Hs & _).
  unfold mbind at 1, M_bind at 1 in Hp. rewrite file_logging_eq in Hp.
  rewrite validate_input_eq in Hp. cbv zeta in Hp. rewrite Hs in Hp.
  destruct (8 <? String.length (new_oracle_name a'))%nat eqn:Hlen; [done|].
  destruct (Py.split ":" (source_host_db a)) as [|h [|db more]]; [done..|].
  destruct (String.eqb_spec (new_oracle_name a') db) as [|Hne]; [done|].
  injection Hp as <- _. cbn [args source_db source_host host_target].
  apply Nat.ltb_ge in Hlen.
  repeat split; eauto using first_token_has_no_separator, first_token_is_prefix.
Qed.

Lemma validated_request_invariant_witness :
  prepare Scenario.usual Scenario.request [] =
    (inr Scenario.validated_request, Scenario.trace_prepared) ∧
  (String.length "oracln" ≤ 8)%nat ∧
  "oracln" ≠ "ora1db" ∧
  Py.contains "." "jz-targethost-1" = false.
Proof.
  assert (H : prepare Scenario.usual Scenario.request [] =
              (inr Scenario.validated_request, Scenario.trace_prepared))
    by (vm_compute; reflexivity).
  pose proof (validated_request_invariant _ _ _ _ H) as (H1 & H2 & _ & _ & _ & H6 & _).
  split; [exact H|]. split; [exact H1|]. split; [exact H2|]. exact H6.
Defined.

Lemma append_assoc_string (s1 s2 s3 : string) : (s1 +:+ s2) +:+ s3 = s1 +:+ s2 +:+ s3.
Proof. induction s1 as [|c s1 IH]; [done|]. unfold String.app in *. simpl. by rewrite IH. Qed.

Lemma foldl_append {A} (f : A → string) (c : string) (l : list A) :
  foldl (λ acc x, acc +:+ f x) c l = c +:+ joined (f <$> l).
Proof.
  revert c. induction l as [|x l IH]; intros c; simpl.
  - by rewrite append_empty_r.
  - rewrite IH. unfold joined. simpl. by rewrite append_assoc_string.
Qed.

(** X14.  The channels of the duplicate script: for a parallelism of [n]
    the script allocates the channels aux1, aux2, ... aux[n], in this order,
    and for a parallelism of zero or below it allocates none. *)
Theorem channels_allocated n duplicate_commands :
  allocate_channels n duplicate_commands =
  duplicate_commands +:+ joined (channel_clause <$> seq 1 (Z.to_nat n)).
Proof.
  unfold allocate_channels.
  rewrite (foldl_append (λ x, Py.format "allocate auxiliary channel aux{} device type disk; "
                                        [Py.str_of_nat (x + 1)])).
  f_equal. f_equal. rewrite <- fmap_S_seq, <- list_fmap_compose.
  apply list_fmap_ext. intros _ x _. simpl. by rewrite Nat.add_1_r.
Qed.

Lemma has_shape_length shape literal :
  has_shape shape literal = true → String.length literal = String.length shape.
Proof.
  revert literal. induction shape as [|p shape IH]; intros [|c literal]; simpl; try done.
  intros [_ H]%andb_prop. by rewrite (IH _ H).
Qed.

Lemma digit_is_not_T c :
  bool_decide (is_Some (Ascii.is_nat c)) = true → Ascii.eqb c "T" = false.
Proof. destruct c as [[] [] [] [] [] [] [] []]; by vm_compute. Qed.

Lemma replace_leaves_no_T s : Py.contains "T" (Py.replace "T" "" s) = false.
Proof.
  induction s as [|c s IH]; [done|]. cbn [Py.replace].
  destruct (Ascii.eqb_spec c "T") as [->|Hne]; [exact IH|].
  cbn [Py.contains String.prefix]. rewrite IH.
  by destruct (Ascii.ascii_dec "T" c) as [<-|_].
Qed.

Lemma shaped_literal_length shape t :
  has_shape shape t = true →
  String.length (Py.replace "T" "" t) = String.length (Py.replace "T" "" shape).
Proof.
  revert t. induction shape as [|p shape IH]; intros [|c t]; cbn [has_shape]; try done.
  intros [Hc Ht]%andb_prop. specialize (IH _ Ht). cbn [Py.replace].
  destruct (Ascii.eqb_spec p "d") as [->|_].
  - rewrite (digit_is_not_T c Hc). change (Ascii.eqb "d" "T") with false.
    cbn [String.length]. by rewrite IH.
  - apply Ascii.eqb_eq in Hc as ->.
    destruct (Ascii.eqb c "T"); cbn [String.length String.append]; by rewrite ?IH.
Qed.

(** X15.  For every restore time of the ISO 8601 form the option asks for
    (four digits, two, two, a T, and the time of day), the literal put in
    the until-time clause is the date followed at once by the time of day:
    eighteen characters, with no T and no blank, so never of the form of the
    mask 'YYYY-MM-DD HH24:MI:SS'. *)
Theorem iso_time_literal t :
  has_shape "dddd-dd-ddTdd:dd:dd" t = true →
  String.length (time_literal t) = 18%nat ∧
  Py.contains "T" (time_literal t) = false ∧
  spec_conforms_to_date_mask (time_literal t) = false.
Proof.
  intros H.
  assert (Hlen : String.length (time_literal t) = 18%nat ∧
                 Py.contains "T" (time_literal t) = false).
  { split; [|apply replace_leaves_no_T].
    unfold time_literal. by rewrite (shaped_literal_length _ _ H). }
  destruct Hlen as [Hlen HT]. split; [done|]. split; [done|].
  unfold spec_conforms_to_date_mask.
  destruct (has_shape _ (time_literal t)) eqn:Hs; [|done].
  apply has_shape_length in Hs. rewrite Hlen in Hs. discriminate Hs.
Qed.

Lemma iso_time_literal_witness :
  has_shape "dddd-dd-ddTdd:dd:dd" "2020-11-06T00:06:00" = true ∧
  String.length (time_literal "2020-11-06T00:06:00") = 18%nat ∧
  Py.contains "T" (time_literal "2020-11-06T00:06:00") = false ∧
  spec_conforms_to_date_mask (time_literal "2020-11-06T00:06:00") = false.
Proof.
  split; [reflexivity|].
  exact (iso_time_literal "2020-11-06T00:06:00" eq_refl).
Defined.

(** ** The instance and the duplicate *)

Lemma bootstrap_eq w d tr :
  let a := settings d in
  let oracle_home := oracle_home_used d in
  bootstrap w d tr =
    match start_auxiliary w a oracle_home (before_startup w d tr) with
    | (inl e, tr2) => (inl e, tr2)
    | (inr sql_return, tr2) =>
        if Py.contains "ORA-01081: cannot start already-running ORACLE" sql_return then
          (inl (RubrikOracleBackupMountCloneError
                  (Py.format "There is an instance of {} all ready running on this host or refreshed DB did not start cleanly. Aborting clone" [new_oracle_name a])),
           tr2 ++ [Log DEBUG (Py.format "There is an instance of {} all ready running on this host. Aborting clone" [new_oracle_name a])])
        else
          let answer := sqlplus_sysdba w tr2 oracle_home "select instance_name from v$instance;" in
          let tr3 := tr2 ++ [SqlplusSysdba oracle_home "select instance_name from v$instance;";
                             Log INFO answer] in
          if negb (Py.contains (new_oracle_name a) answer) then
            (inl (RubrikOracleBackupMountCloneError
                    (Py.format "DB Instance check failed. Instance name is not {}. Aborting clone" [new_oracle_name a])),
             tr3 ++ [Log DEBUG (Py.format "DB Instance check failed. Instance name is not {}. Aborting clone" [new_oracle_name a])])
          else (inr d, tr3)
    end.
Proof.
  intros a oracle_home. unfold bootstrap, before_startup. fold a oracle_home.
  unfold_monad. cbv beta iota zeta.
  destruct (refresh_db a); cbv beta iota; rewrite <- !app_assoc; cbn [app];
    (destruct (start_auxiliary w a oracle_home _) as [[e|s] tr2]; [done|]);
    (destruct (Py.contains "ORA-01081: cannot start already-running ORACLE" s); [done|]);
    destruct (negb (Py.contains (new_oracle_name a) _)); by rewrite <- ?app_assoc.
Qed.

Lemma cli_bootstrap_inl w a d tr e tr' :
  until_discovered w a [] = (inr d, tr) →
  bootstrap w d tr = (inl e, tr') →
  run (cli w a) = (inl e, tr').
Proof.
  intros Hd Hb. unfold run, cli, until_restored.
  do 2 (erewrite bind_inl; [reflexivity|]).
  erewrite bind_inr by exact Hd. exact Hb.
Qed.

(** X16.  When the answer to the start of the auxiliary instance contains
    the text of ORA-01081, the run ends with the script's error at once: the
    name of the instance is not queried and the duplicate is not run. *)
Theorem instance_already_running w a d tr sql_return tr2 :
  until_discovered w a [] = (inr d, tr) →
  start_auxiliary w (settings d) (oracle_home_used d) (before_startup w d tr) =
    (inr sql_return, tr2) →
  Py.contains "ORA-01081: cannot start already-running ORACLE" sql_return = true →
  run (cli w a) =
    (inl (RubrikOracleBackupMountCloneError
            (Py.format "There is an instance of {} all ready running on this host or refreshed DB did not start cleanly. Aborting clone" [new_oracle_name (settings d)])),
     tr2 ++ [Log DEBUG (Py.format "There is an instance of {} all ready running on this host. Aborting clone" [new_oracle_name (settings d)])]).
Proof.
  intros Hd Hs Hc. apply (cli_bootstrap_inl w a d tr _ _ Hd).
  rewrite bootstrap_eq. cbv zeta. by rewrite Hs, Hc.
Qed.

(** X17.  The check of the instance is a test for a substring: when the
    instance has started and the answer to the query of the instance name
    does not contain the new name anywhere, the run ends with the script's
    error before the duplicate is run. *)
Theorem instance_name_not_in_answer w a d tr sql_return tr2 :
  until_discovered w a [] = (inr d, tr) →
  start_auxiliary w (settings d) (oracle_home_used d) (before_startup w d tr) =
    (inr sql_return, tr2) →
  Py.contains "ORA-01081: cannot start already-running ORACLE" sql_return = false →
  let answer := sqlplus_sysdba w tr2 (oracle_home_used d)
                  "select instance_name from v$instance;" in
  Py.contains (new_oracle_name (settings d)) answer = false →
  run (cli w a) =
    (inl (RubrikOracleBackupMountCloneError
            (Py.format "DB Instance check failed. Instance name is not {}. Aborting clone" [new_oracle_name (settings d)])),
     tr2 ++ [SqlplusSysdba (oracle_home_used d) "select instance_name from v$instance;";
             Log INFO answer;
             Log DEBUG (Py.format "DB Instance check failed. Instance name is not {}. Aborting clone" [new_oracle_name (settings d)])]).
Proof.
  intros Hd Hs Hc answer Hn. apply (cli_bootstrap_inl w a d tr _ _ Hd).
  rewrite bootstrap_eq. cbv zeta. rewrite Hs, Hc. fold answer. rewrite Hn.
  cbn [negb]. by rewrite <- app_assoc.
Qed.

Lemma instance_already_running_witness :
  until_discovered Scenario.already_running Scenario.request [] =
    (inr Scenario.discovered_request, Scenario.trace_until_discovered) ∧
  start_auxiliary Scenario.already_running Scenario.request
    "/u01/app/oracle/product/12.2.0/dbhome_1"
    (before_startup Scenario.already_running Scenario.discovered_request
       Scenario.trace_until_discovered) =
    (inr "ORA-01081: cannot start already-running ORACLE - shut it down first",
     Scenario.trace_instance_refused) ∧
  run (cli Scenario.already_running Scenario.request) =
    (inl (RubrikOracleBackupMountCloneError
            "There is an instance of oracln all ready running on this host or refreshed DB did not start cleanly. Aborting clone"),
     Scenario.trace_instance_refused ++
     [Log DEBUG "There is an instance of oracln all ready running on this host. Aborting clone"]).
Proof.
  assert (H1 : until_discovered Scenario.already_running Scenario.request [] =
               (inr Scenario.discovered_request, Scenario.trace_until_discovered))
    by (vm_compute; reflexivity).
  assert (H2 : start_auxiliary Scenario.already_running
                 (settings Scenario.discovered_request)
                 (oracle_home_used Scenario.discovered_request)
                 (before_startup Scenario.already_running Scenario.discovered_request
                    Scenario.trace_until_discovered) =
               (inr "ORA-01081: cannot start already-running ORACLE - shut it down first",
                Scenario.trace_instance_refused))
    by (vm_compute; reflexivity).
  split; [exact H1|]. split; [exact H2|].
  exact (instance_already_running _ _ _ _ _ _ H1 H2 eq_refl).
Defined.

Lemma instance_name_not_in_answer_witness :
  until_discovered Scenario.other_instance Scenario.request [] =
    (inr Scenario.discovered_request, Scenario.trace_until_discovered) ∧
  start_auxiliary Scenario.other_instance Scenario.request
    "/u01/app/oracle/product/12.2.0/dbhome_1"
    (before_startup Scenario.other_instance Scenario.discovered_request
       Scenario.trace_until_discovered) =
    (inr "ORACLE instance started.", Scenario.trace_instance_started) ∧
  Py.contains "oracln" "INSTANCE_NAME: ora1db" = false ∧
  run (cli Scenario.other_instance Scenario.request) =
    (inl (RubrikOracleBackupMountCloneError
            "DB Instance check failed. Instance name is not oracln. Aborting clone"),
     Scenario.trace_instance_started ++
     [SqlplusSysdba "/u01/app/oracle/product/12.2.0/dbhome_1"
        "select instance_name from v$instance;";
      Log INFO "INSTANCE_NAME: ora1db";
      Log DEBUG "DB Instance check failed. Instance name is not oracln. Aborting clone"]).
Proof.
  assert (H1 : until_discovered Scenario.other_instance Scenario.request [] =
               (inr Scenario.discovered_request, Scenario.trace_until_discovered))
    by (vm_compute; reflexivity).
  assert (H2 : start_auxiliary Scenario.other_instance
                 (settings Scenario.discovered_request)
                 (oracle_home_used Scenario.discovered_request)
                 (before_startup Scenario.other_instance Scenario.discovered_request
                    Scenario.trace_until_discovered) =
               (inr "ORACLE instance started.", Scenario.trace_instance_started))
    by (vm_compute; reflexivity).
  split; [exact H1|]. split; [exact H2|]. split; [reflexivity|].
  exact (instance_name_not_in_answer _ _ _ _ _ _ H1 H2 eq_refl eq_refl).
Defined.

Lemma bootstrap_inr w d tr d' tr' :
  bootstrap w d tr = (inr d', tr') →
  d' = d ∧
  ∃ tr2, tr' = tr2 ++ [SqlplusSysdba (oracle_home_used d) "select instance_name from v$instance;";
                       Log INFO (sqlplus_sysdba w tr2 (oracle_home_used d)
                                   "select instance_name from v$instance;")].
Proof.
  rewrite bootstrap_eq. cbv zeta.
  destruct (start_auxiliary _ _ _ _) as [[e|s] tr2]; [done|].
  destruct (Py.contains "ORA-01081: cannot start already-running ORACLE" s); [done|].
  destruct (negb _); [done|]. intros [= <- <-]. eauto.
Qed.

Lemma duplicate_inr w d tr d' tr' :
  duplicate w d tr = (inr d', tr') → d' = d.
Proof.
  unfold duplicate, int. unfold_monad. cbv beta iota zeta.
  destruct (Py.int (parallelism (settings d))); [|done]. by intros [= <- _].
Qed.

(** X18.  The parallelism is only converted to a number when the duplicate
    script is built: a parallelism that is not a number ends the run with
    Python's [ValueError] after the auxiliary instance has been started and
    checked, and before the duplicate is run. *)
Theorem parallelism_is_read_late w a d tr :
  (until_discovered w a ≫= bootstrap w) [] = (inr d, tr) →
  Py.int (parallelism (settings d)) = None →
  (∃ msg,
     run (cli w a) =
       (inl (ValueError msg),
        tr ++ [Log WARNING (Py.format "Beginning duplicate of {} to {} on host {}."
                              [source_db (source d); new_oracle_name (settings d);
                               source_host (source d)])])) ∧
  SqlplusSysdba (oracle_home_used d) "select instance_name from v$instance;" ∈ tr.
Proof.
  intros Hb Hp. split.
  - eexists. unfold run, cli, until_restored.
    erewrite bind_inl; [reflexivity|]. erewrite bind_inr by exact Hb.
    unfold duplicate, int. unfold_monad. cbv beta iota zeta. by rewrite Hp.
  - apply bind_inv_inr in Hb as (d0 & tr0 & _ & Hb).
    apply bootstrap_inr in Hb as (-> & tr2 & ->).
    rewrite elem_of_app, elem_of_cons. auto.
Qed.

Lemma parallelism_is_read_late_witness :
  (until_discovered Scenario.usual (Scenario.with_parallelism Scenario.request "four") ≫=
   bootstrap Scenario.usual) [] =
    (inr (Scenario.discovered_with (Scenario.with_parallelism Scenario.request "four")),
     Scenario.trace_until_started) ∧
  Py.int "four" = None ∧
  (∃ msg,
     run (cli Scenario.usual (Scenario.with_parallelism Scenario.request "four")) =
       (inl (ValueError msg),
        Scenario.trace_until_started ++
        [Log WARNING "Beginning duplicate of ora1db to oracln on host jz-sourcehost-1."])) ∧
  SqlplusSysdba "/u01/app/oracle/product/12.2.0/dbhome_1"
    "select instance_name from v$instance;" ∈ Scenario.trace_until_started.
Proof.
  assert (H : (until_discovered Scenario.usual
                 (Scenario.with_parallelism Scenario.request "four") ≫=
               bootstrap Scenario.usual) [] =
              (inr (Scenario.discovered_with (Scenario.with_parallelism Scenario.request "four")),
               Scenario.trace_until_started))
    by (vm_compute; reflexivity).
  split; [exact H|]. split; [reflexivity|].
  exact (parallelism_is_read_late _ _ _ _ H eq_refl).
Defined.

(** ** After the mount *)

(** X19.  From the directory to the unmount.  In a run that ends normally,
    the live mount that is deleted at the end is the one whose identifier is
    the second part, between underscores, of the name of the directory the
    mount created. *)
Theorem unmount_uses_the_directory_token w a m tr entry :
  until_mounted w a [] = (inr m, tr) →
  let mp := mount_path (args (validated (resolved m))) in
  new_entries (os_listdir w tr mp) (live_mount_directories m) = [entry] →
  fst (run (cli w a)) = inr () →
  ∃ id, Py.split "_" entry !! 1%nat = Some id ∧
        LiveMountDelete id ∈ snd (run (cli w a)).
Proof.
  intros Hm mp He Hok.
  pose proof (discover_single w m tr entry He) as Hd. cbv zeta in Hd. fold mp in Hd.
  destruct (Py.split "_" entry !! 1%nat) as [id|].
  2:{ rewrite (cli_discover_inl w a m tr _ _ Hm Hd) in Hok. discriminate Hok. }
  exists id. split; [done|].
  revert Hok. unfold run, cli, until_restored, until_discovered.
  unfold mbind, M_bind. rewrite Hm, Hd.
  set (d := {| mounted := m; backup_path := Py.path_join mp entry; live_mount_id := id |}).
  set (tr1 := tr ++ _).
  destruct (bootstrap w d tr1) as [[e|d1] tr2] eqn:Hb; [done|].
  apply bootstrap_inr in Hb as [-> _].
  destruct (duplicate w d tr2) as [[e|d2] tr3] eqn:Hdup; [done|].
  apply duplicate_inr in Hdup as ->.
  intros _. rewrite unmount_eq. cbn [snd live_mount_id d].
  rewrite !elem_of_app, !elem_of_cons. auto 10.
Qed.

Lemma unmount_uses_the_directory_token_witness :
  until_mounted Scenario.usual Scenario.request [] =
    (inr Scenario.mounted_request, Scenario.trace_until_mounted) ∧
  new_entries (os_listdir Scenario.usual Scenario.trace_until_mounted "/u02/oradata/restore")
              ["ORCLO_11111_files"] = ["ORCLN_12345_files"] ∧
  fst (run (cli Scenario.usual Scenario.request)) = inr () ∧
  ∃ id, Py.split "_" "ORCLN_12345_files" !! 1%nat = Some id ∧
        LiveMountDelete id ∈ snd (run (cli Scenario.usual Scenario.request)).
Proof.
  assert (H1 : until_mounted Scenario.usual Scenario.request [] =
               (inr Scenario.mounted_request, Scenario.trace_until_mounted))
    by (vm_compute; reflexivity).
  assert (H2 : new_entries
                 (os_listdir Scenario.usual Scenario.trace_until_mounted "/u02/oradata/restore")
                 ["ORCLO_11111_files"] = ["ORCLN_12345_files"]) by (vm_compute; reflexivity).
  assert (H3 : fst (run (cli Scenario.usual Scenario.request)) = inr ())
    by (vm_compute; reflexivity).
  split; [exact H1|]. split; [exact H2|]. split; [exact H3|].
  exact (unmount_uses_the_directory_token _ _ _ _ _ H1 H2 H3).
Defined.

